(** * Urban heat island analysis backend

    A shallow embedding of [backend/app.py]: the helper classifiers, the
    request handler [analyze_uhi] with its generation loop, its second pass
    over the generated points and its statistics block, and the properties
    of that pipeline.

    Python floats are IEEE binary64 numbers, embedded as Rocq's primitive
    floats.  The builtins the handler calls ([int], [round], [sum], [min],
    [max], [random.random], [datetime.now]) are embedded in [Module Py]. *)

From Stdlib Require Import ZArith NArith List String Ascii Bool Lia.
From Stdlib Require Import Floats.
Import ListNotations.

#[local] Set Warnings "-inexact-float".
#[local] Open Scope string_scope.
#[local] Open Scope list_scope.
#[local] Open Scope Z_scope.

(** ** The Python runtime the handler relies on *)

Module Py.

(** Exceptions the handler can raise.  All derive from [Exception], so
    the handler's [except Exception] clause catches each of them; the
    response's ["error"] field is [str(e)]. *)
Inductive exn : Type :=
| ValueError_int_literal (s : string)
    (* invalid literal for int() with base 10: repr(s) *)
| ValueError_int_max_str_digits (digits : nat)
    (* Exceeds the limit (4300 digits) for integer string conversion *)
| ValueError_empty_sequence
    (* min() / max() of an empty sequence *)
| ZeroDivisionError
    (* division by zero *)
| OverflowError_pow
    (* (34, 'Numerical result out of range') *)
| OverflowError_timedelta
    (* days=...; must have magnitude <= 999999999 *)
| OverflowError_date.
    (* date value out of range *)

(** A computation that returns a value or raises. *)
Inductive result (A : Type) : Type :=
| Ok (a : A)
| Raise (e : exn).
Arguments Ok {A} a.
Arguments Raise {A} e.

Definition bind {A B : Type} (m : result A) (k : A -> result B) : result B :=
  match m with
  | Ok a => k a
  | Raise e => Raise e
  end.

(** A number that is an [int] or a [float]. *)
Inductive num : Type :=
| Int (z : Z)
| Float (f : float).

(** *** Floats *)

(** [float(z)]: the binary64 number nearest to the integer [z]. *)
Definition float_of_Z (z : Z) : float :=
  SF2Prim (binary_normalize prec emax z 0 false).

Definition to_float (a : num) : float :=
  match a with
  | Int z => float_of_Z z
  | Float f => f
  end.

(** [a + b] on numbers: an [int] operand is converted when the other one
    is a [float]. *)
Definition add (a b : num) : num :=
  match a, b with
  | Int x, Int y => Int (x + y)
  | _, _ => Float (to_float a + to_float b)
  end.

(** [a / n] with [n] an [int] (a length): true division. *)
Definition truediv (a : num) (n : Z) : result float :=
  if n =? 0 then Raise ZeroDivisionError
  else Ok (to_float a / float_of_Z n)%float.

(** [x ** 2] on a float: the C library's [pow], the square correctly
    rounded; a finite [x] whose square overflows raises. *)
Definition pow2 (x : float) : result float :=
  let r := (x * x)%float in
  if is_infinity r && negb (is_infinity x) then Raise OverflowError_pow
  else Ok r.

(** [x ** 0.5] on a float that is not negative: [pow(x, 0.5)], taken as
    the correctly rounded square root. *)
Definition pow_half (x : float) : float := sqrt x.

(** The integer nearest to [num / den] ([den > 0]), ties to even. *)
Definition round_half_even (num den : Z) : Z :=
  let q := num / den in
  match 2 * (num mod den) ?= den with
  | Lt => q
  | Gt => q + 1
  | Eq => if Z.even q then q else q + 1
  end.

(** The binary64 number nearest to [(-1)^s * n / d], for [n >= 0] and
    [d > 0]. *)
Definition nearest_ratio (s : bool) (n d : Z) : spec_float :=
  match n, d with
  | Zpos pn, Zpos pd =>
      SFdiv prec emax (S754_finite s pn 0) (S754_finite false pd 0)
  | _, _ => S754_zero s
  end.

(** [round(x, ndigits)] for a float [x] and [ndigits >= 0]: infinities
    and NaN round to themselves; a finite [x] is rounded, exactly and
    ties to even, to [ndigits] decimals, and the decimal obtained is
    converted back to the nearest float (CPython's [double_round]). *)
Definition round (x : float) (ndigits : nat) : float :=
  match Prim2SF x with
  | S754_finite s m e =>
      let p := 10 ^ Z.of_nat ndigits in
      let k := round_half_even (Zpos m * 2 ^ Z.max e 0 * p) (2 ^ Z.max (- e) 0) in
      SF2Prim (nearest_ratio s k p)
  | _ => x
  end.

(** [min(a, b)] and [max(a, b)]: the first argument is kept unless the
    second one is strictly smaller (larger). *)
Definition min2 (a b : float) : float := if (b <? a)%float then b else a.
Definition max2 (a b : float) : float := if (a <? b)%float then b else a.

(** [min(l)] and [max(l)] on a list. *)
Definition min (l : list float) : result float :=
  match l with
  | [] => Raise ValueError_empty_sequence
  | x :: l' => Ok (fold_left min2 l' x)
  end.

Definition max (l : list float) : result float :=
  match l with
  | [] => Raise ValueError_empty_sequence
  | x :: l' => Ok (fold_left max2 l' x)
  end.

(** [sum(l)]: starts from the [int] 0 and adds the items from left to
    right (the plain accumulation of CPython up to 3.11; later versions
    carry a compensation term along, which can change the last bits of a
    long sum). *)
Definition sum (l : list float) : num :=
  fold_left (fun acc x => add acc (Float x)) l (Int 0).

Definition len {A : Type} (l : list A) : Z := Z.of_nat (List.length l).

(** *** [int] on text *)

(** Characters [int] skips around an ASCII literal: tab, line feed,
    vertical tab, form feed, carriage return and space. *)
Definition is_space (c : ascii) : bool :=
  let n := N_of_ascii c in
  ((9 <=? n) && (n <=? 13) || (n =? 32))%N.

Definition digit_value (c : ascii) : option Z :=
  let n := N_of_ascii c in
  if ((48 <=? n) && (n <=? 57))%N then Some (Z.of_N n - 48) else None.

Fixpoint lstrip (s : string) : string :=
  match s with
  | String c s' => if is_space c then lstrip s' else s
  | EmptyString => s
  end.

Fixpoint all_space (s : string) : bool :=
  match s with
  | String c s' => is_space c && all_space s'
  | EmptyString => true
  end.

(** What the scan of a digit run last read. *)
Inductive prev_char : Type := AtStart | AfterDigit | AfterUnderscore.

(** Reads decimal digits, single underscores allowed between them;
    [None] on a misplaced underscore or when no digit is read, otherwise
    the value, the number of digits and the text left. *)
Fixpoint scan_digits (s : string) (prev : prev_char) (acc : Z) (digits : nat)
  : option (Z * nat * string) :=
  let stop :=
    match prev with
    | AfterDigit => Some (acc, digits, s)
    | _ => None
    end in
  match s with
  | String c s' =>
      match digit_value c with
      | Some d => scan_digits s' AfterDigit (10 * acc + d) (S digits)
      | None =>
          if Ascii.eqb c "_" then
            match prev with
            | AfterDigit => scan_digits s' AfterUnderscore acc digits
            | _ => None
            end
          else stop
      end
  | EmptyString => stop
  end.

Definition max_str_digits : nat := 4300.

(** [int(s)] for text [s], base 10: optional blanks, an optional sign,
    digits, optional blanks.  Text is ASCII here: the digits and blanks
    of other scripts, which [int] also reads, are not part of the
    embedding and are rejected. *)
Definition int_of_string (s : string) : result Z :=
  let body := lstrip s in
  let '(neg, rest) :=
    match body with
    | String "-" r => (true, r)
    | String "+" r => (false, r)
    | _ => (false, body)
    end in
  match scan_digits rest AtStart 0 0%nat with
  | None => Raise (ValueError_int_literal s)
  | Some (v, digits, tail) =>
      if (max_str_digits <? digits)%nat
      then Raise (ValueError_int_max_str_digits digits)
      else if all_space tail then Ok (if neg then - v else v)
      else Raise (ValueError_int_literal s)
  end.

(** A value of [request.args.get(key, default)]: the text of the query
    parameter, or the integer default. *)
Inductive arg : Type :=
| Text (s : string)
| Default (z : Z).

Definition int (a : arg) : result Z :=
  match a with
  | Text s => int_of_string s
  | Default z => Ok z
  end.

(** *** The world outside: the random generator and the clock *)

(** [random_bits i] is the 53-bit integer behind the [i]-th call of
    [random.random()]; [now i] is the day (proleptic Gregorian ordinal)
    of the [i]-th reading of [datetime.now()]. *)
Record world : Type := {
  random_bits : nat -> N;
  now : nat -> Z
}.

(** [random.random()]: a multiple of 2^-53 in [0, 1); the state is the
    number of draws made so far. *)
Definition random (w : world) (drawn : nat) : float * nat :=
  let k := Z.of_N (random_bits w drawn) mod 2 ^ 53 in
  ((float_of_Z k / float_of_Z (2 ^ 53))%float, S drawn).

(** [random.uniform(a, b)] is [a + (b - a) * random()]. *)
Definition uniform (w : world) (a b : float) (drawn : nat) : float * nat :=
  let '(u, drawn') := random w drawn in
  ((a + (b - a) * u)%float, drawn').

(** Days are kept as ordinals; [date.min] is day 1 and [date.max] day
    3652059 (9999-12-31). *)
Definition max_ordinal : Z := 3652059.
Definition max_delta_days : Z := 999999999.

(** [timedelta(days=d)]. *)
Definition timedelta (d : Z) : result Z :=
  if Z.abs d <=? max_delta_days then Ok d else Raise OverflowError_timedelta.

(** [t - delta] on a datetime: the day of the result, which must be a
    representable date. *)
Definition datetime_sub (t delta : Z) : result Z :=
  let r := t - delta in
  if (1 <=? r) && (r <=? max_ordinal) then Ok r else Raise OverflowError_date.

End Py.

Notation "x <- m ;; k" := (Py.bind m (fun x => k))
  (at level 61, m at next level, right associativity).

(** ** Helper functions *)

Definition classify_vegetation (ndvi : float) : string :=
  if (ndvi <? 0.2)%float then "Water/Built-up"
  else if (ndvi <? 0.4)%float then "Barren/Sparse"
  else if (ndvi <? 0.6)%float then "Moderate Vegetation"
  else "Dense Vegetation".

(** [d.get(key, default)] on a dict literal with integer keys. *)
Fixpoint dict_get {A : Type} (d : list (Z * A)) (key : Z) (default : A) : A :=
  match d with
  | [] => default
  | (k, v) :: d' => if k =? key then v else dict_get d' key default
  end.

Definition get_zone_color (zone : Z) : string :=
  let colors := [(0, "#ef4444"); (1, "#f97316"); (2, "#22c55e")] in
  dict_get colors zone "#9ca3af".

Definition get_severity (zone : Z) : string :=
  let severity_map := [(0, "High"); (1, "Medium"); (2, "Low")] in
  dict_get severity_map zone "Unknown".

Definition get_recommendation (zone : Z) (ndvi : float) : string :=
  if zone =? 0 then
    if (ndvi <? 0.3)%float
    then "Plant more trees and create green spaces urgently"
    else "Improve ventilation and add water features"
  else if zone =? 1 then
    if (ndvi <? 0.4)%float
    then "Increase vegetation cover and add shade structures"
    else "Maintain current green cover and monitor temperature"
  else "Maintain existing vegetation and urban planning".

(** ** The analysis handler *)

(** One entry of [results]; the fields are the keys of the dict. *)
Record point : Type := {
  lat : float;
  lon : float;
  lst : float;
  ndvi : float;
  zone : Z;
  vegetation : string;
  color : string;
  severity : string;
  recommendation : string;
  uhi_intensity : Py.num
}.

(** [point["uhi_intensity"] = v]. *)
Definition set_uhi_intensity (p : point) (v : Py.num) : point :=
  {| lat := lat p; lon := lon p; lst := lst p; ndvi := ndvi p; zone := zone p;
     vegetation := vegetation p; color := color p; severity := severity p;
     recommendation := recommendation p; uhi_intensity := v |}.

(** The nested dicts of [statistics]; a date string is kept as the ordinal
    of the day it prints. *)
Record temperature_statistics : Type := {
  min_lst : float;
  max_lst : float;
  avg_lst : float;
  std_lst : float
}.

Record vegetation_statistics : Type := {
  min_ndvi : float;
  max_ndvi : float;
  avg_ndvi : float
}.

Record uhi_statistics : Type := {
  min_intensity : float;
  max_intensity : float;
  avg_intensity : float
}.

Record date_range_block : Type := {
  start_date : Z;
  end_date : Z;
  image_date : Z
}.

(** [vegetation_summary] is the key ["vegetation"] of the dict. *)
Record statistics_record : Type := {
  total_points : Z;
  high_heat_zones : Z;
  medium_heat_zones : Z;
  low_heat_zones : Z;
  temperature : temperature_statistics;
  vegetation_summary : vegetation_statistics;
  uhi : uhi_statistics;
  date_range : date_range_block
}.

(** What the handler returns: the success body (status 200) or the error
    body (status 500, ["error"] being [str(e)]). *)
Inductive response : Type :=
| Success (data : list point) (statistics : statistics_record)
| Failure (error : Py.exn).

(** [request.args]: the query parameters in the order they were sent;
    [get] takes the first value of a key. *)
Definition query : Type := list (string * string).

Fixpoint args_get (args : query) (key : string) (default : Z) : Py.arg :=
  match args with
  | [] => Py.Default default
  | (k, v) :: args' =>
      if String.eqb k key then Py.Text v else args_get args' key default
  end.

Definition center_lat : float := 20.2961.
Definition center_lon : float := 85.8245.

(** The zone of a temperature (the [if lst >= 40 ... elif lst >= 34 ...]
    chain of the loop body). *)
Definition zone_of_lst (lst : float) : Z :=
  if (40 <=? lst)%float then 0
  else if (34 <=? lst)%float then 1
  else 2.

(** The state of the generation loop: the three lists it appends to and
    the number of random draws made. *)
Record generation : Type := {
  results : list point;
  temp_list : list float;
  ndvi_list : list float;
  drawn : nat
}.

Definition generation_start : generation :=
  {| results := []; temp_list := []; ndvi_list := []; drawn := 0 |}.

(** One iteration of [for _ in range(points)]. *)
Definition generate_point (w : Py.world) (g : generation) : generation :=
  let '(dlat, d1) := Py.uniform w (-0.08) 0.08 (drawn g) in
  let lat := (center_lat + dlat)%float in
  let '(dlon, d2) := Py.uniform w (-0.08) 0.08 d1 in
  let lon := (center_lon + dlon)%float in
  let '(t, d3) := Py.uniform w 28 45 d2 in
  let lst := Py.round t 2 in
  let '(v, d4) := Py.uniform w 0.1 0.8 d3 in
  let ndvi := Py.round (v * (1 - (lst - 28) / 20)) 3 in
  let ndvi := Py.max2 0.05 (Py.min2 0.85 ndvi) in
  let zone := zone_of_lst lst in
  let vegetation := classify_vegetation ndvi in
  let color := get_zone_color zone in
  let severity := get_severity zone in
  let recommendation := get_recommendation zone ndvi in
  {| results := results g ++
       [ {| lat := lat; lon := lon; lst := lst; ndvi := ndvi; zone := zone;
            vegetation := vegetation; color := color; severity := severity;
            recommendation := recommendation; uhi_intensity := Py.Int 0 |} ];
     temp_list := temp_list g ++ [lst];
     ndvi_list := ndvi_list g ++ [ndvi];
     drawn := d4 |}.

(** [n] iterations of the loop. *)
Fixpoint generate (w : Py.world) (n : nat) (g : generation) : generation :=
  match n with
  | O => g
  | S n' => generate w n' (generate_point w g)
  end.

(** The second loop, [for point in results]: sets every point's
    [uhi_intensity] and appends it to [uhi_list]. *)
Fixpoint update_uhi (mean_temp : float) (results : list point) (uhi_list : list float)
  : list point * list float :=
  match results with
  | [] => ([], uhi_list)
  | point :: rest =>
      let uhi_intensity := Py.round (lst point - mean_temp) 2 in
      let '(rest', uhi_list') :=
        update_uhi mean_temp rest (uhi_list ++ [uhi_intensity]) in
      (set_uhi_intensity point (Py.Float uhi_intensity) :: rest', uhi_list')
  end.

(** [sum((t - mean_temp) ** 2 for t in temp_list)], from the running
    total [acc]. *)
Fixpoint sum_squared_deviations (mean_temp : float) (temp_list : list float)
    (acc : Py.num) : Py.result Py.num :=
  match temp_list with
  | [] => Py.Ok acc
  | t :: rest =>
      sq <- Py.pow2 (t - mean_temp) ;;
      sum_squared_deviations mean_temp rest (Py.add acc (Py.Float sq))
  end.

(** [len([p for p in results if p["zone"] == z])]. *)
Definition count_zone (results : list point) (z : Z) : Z :=
  Py.len (filter (fun p => zone p =? z) results).

(** The [statistics = {...}] block; the entries are evaluated in the
    order they are written. *)
Definition compute_statistics (w : Py.world) (points days : Z) (mean_temp : float)
    (results : list point) (temp_list ndvi_list uhi_list : list float)
  : Py.result statistics_record :=
  let high := count_zone results 0 in
  let medium := count_zone results 1 in
  let low := count_zone results 2 in
  tmin <- Py.min temp_list ;;
  tmax <- Py.max temp_list ;;
  squares <- sum_squared_deviations mean_temp temp_list (Py.Int 0) ;;
  variance <- Py.truediv squares (Py.len temp_list) ;;
  nmin <- Py.min ndvi_list ;;
  nmax <- Py.max ndvi_list ;;
  navg <- Py.truediv (Py.sum ndvi_list) (Py.len ndvi_list) ;;
  umin <- Py.min uhi_list ;;
  umax <- Py.max uhi_list ;;
  uavg <- Py.truediv (Py.sum uhi_list) (Py.len uhi_list) ;;
  delta <- Py.timedelta days ;;
  start <- Py.datetime_sub (Py.now w 0) delta ;;
  Py.Ok
    {| total_points := points;
       high_heat_zones := high;
       medium_heat_zones := medium;
       low_heat_zones := low;
       temperature :=
         {| min_lst := Py.round tmin 1;
            max_lst := Py.round tmax 1;
            avg_lst := Py.round mean_temp 1;
            std_lst := Py.round (Py.pow_half variance) 1 |};
       vegetation_summary :=
         {| min_ndvi := Py.round nmin 3;
            max_ndvi := Py.round nmax 3;
            avg_ndvi := Py.round navg 3 |};
       uhi :=
         {| min_intensity := Py.round umin 1;
            max_intensity := Py.round umax 1;
            avg_intensity := Py.round uavg 1 |};
       date_range :=
         {| start_date := start;
            end_date := Py.now w 1;
            image_date := Py.now w 2 |} |}.

(** The body of the [try] block. *)
Definition analyze_uhi_try (args : query) (w : Py.world)
  : Py.result (list point * statistics_record) :=
  points <- Py.int (args_get args "points" 100) ;;
  days <- Py.int (args_get args "days" 30) ;;
  let g := generate w (Z.to_nat points) generation_start in
  mean_temp <- Py.truediv (Py.sum (temp_list g)) (Py.len (temp_list g)) ;;
  let '(results, uhi_list) := update_uhi mean_temp (results g) [] in
  statistics <-
    compute_statistics w points days mean_temp results (temp_list g) (ndvi_list g)
      uhi_list ;;
  Py.Ok (results, statistics).

Definition analyze_uhi (args : query) (w : Py.world) : response :=
  match analyze_uhi_try args w with
  | Py.Ok (results, statistics) => Success results statistics
  | Py.Raise e => Failure e
  end.

(** ** Notions the properties are stated with *)

(** The fields of a point that the loop body derives from its temperature
    and vegetation index. *)
Definition derived_fields (p : point) : Prop :=
  zone p = zone_of_lst (lst p) /\
  vegetation p = classify_vegetation (ndvi p) /\
  color p = get_zone_color (zone p) /\
  severity p = get_severity (zone p) /\
  recommendation p = get_recommendation (zone p) (ndvi p).

(** The vegetation index of the loop body: a draw [v] of
    [uniform(0.1, 0.8)] scaled down with the temperature, rounded to three
    decimals, then clamped. *)
Definition ndvi_formula (v lst : float) : float :=
  Py.max2 0.05 (Py.min2 0.85 (Py.round (v * (1 - (lst - 28) / 20)) 3)).

Definition clamped_ndvi (p : point) : Prop :=
  exists v : float, ndvi p = ndvi_formula v (lst p).

(** What the generation loop maintains: every point is derived and
    clamped, and the two side lists mirror [results]. *)
Definition generation_invariant (g : generation) : Prop :=
  Forall (fun p => derived_fields p /\ clamped_ndvi p) (results g) /\
  temp_list g = map lst (results g) /\
  ndvi_list g = map ndvi (results g).

(** The heat intensity the second pass gives a point. *)
Definition centred (mean_temp : float) (p : point) : point :=
  set_uhi_intensity p (Py.Float (Py.round (lst p - mean_temp) 2)).

(** [sum] of the heat intensities of the points, as floats. *)
Definition intensity_of (p : point) : float := Py.to_float (uhi_intensity p).

(** *** Requests and worlds used as concrete inputs *)

(** A generator whose draws are all zero, except those listed. *)
Definition world_with (draws : list (nat * N)) : Py.world :=
  {| Py.random_bits := fun i =>
       match find (fun d => Nat.eqb (fst d) i) draws with
       | Some d => snd d
       | None => 0%N
       end;
     Py.now := fun _ => 740000 |}.

Definition world_zero : Py.world := world_with [].

(** One point, drawn at temperature 45.0 and vegetation index 0.1. *)
Definition world_hot : Py.world :=
  world_with [(2%nat, (2 ^ 53 - 1)%N); (3%nat, 7291000000000000%N)].

(** Three points, drawn at temperatures 28.0, 28.0 and 28.01. *)
Definition world_three : Py.world := world_with [(10%nat, 5300000000000%N)].

Definition request_points (n : string) : query := [("points", n)].

(** The rank of a vegetation category, from bare to dense. *)
Definition category_rank (category : string) : Z :=
  if String.eqb category "Water/Built-up" then 0
  else if String.eqb category "Barren/Sparse" then 1
  else if String.eqb category "Moderate Vegetation" then 2
  else 3.

(** The fields of a point that are set when it is generated, that is all
    of them but [uhi_intensity]. *)
Definition same_generated_fields (p q : point) : Prop :=
  lat p = lat q /\ lon p = lon q /\ lst p = lst q /\ ndvi p = ndvi q /\
  zone p = zone q /\ vegetation p = vegetation q /\ color p = color q /\
  severity p = severity q /\ recommendation p = recommendation q.

(** The aggregates of [statistics] that do not depend on the clock. *)
Definition same_aggregates (s t : statistics_record) : Prop :=
  total_points s = total_points t /\
  high_heat_zones s = high_heat_zones t /\
  medium_heat_zones s = medium_heat_zones t /\
  low_heat_zones s = low_heat_zones t /\
  temperature s = temperature t /\
  vegetation_summary s = vegetation_summary t /\
  uhi s = uhi t.


Definition request_points_days (n d : string) : query :=
  [("points", n); ("days", d)].

(** ** The order on floats *)

Section FloatOrder.

(** Comparison of specified floats is the lexicographic comparison of a
    key: the sign class, the exponent and the mantissa. *)
Definition SFkey (x : spec_float) : option (Z * Z * Z) :=
  match x with
  | S754_nan => None
  | S754_zero _ => Some (0, 0, 0)
  | S754_infinity s => Some (if s then -2 else 2, 0, 0)
  | S754_finite s m e => if s then Some (-1, - e, Zneg m) else Some (1, e, Zpos m)
  end.

Definition lex3 (a b : Z * Z * Z) : comparison :=
  let '(a1, a2, a3) := a in
  let '(b1, b2, b3) := b in
  match a1 ?= b1 with
  | Eq => match a2 ?= b2 with Eq => a3 ?= b3 | c => c end
  | c => c
  end.

Lemma SFcompare_key (x y : spec_float) :
  SFcompare x y =
  match SFkey x, SFkey y with
  | Some a, Some b => Some (lex3 a b)
  | _, _ => None
  end.
Proof.
  destruct x as [sx|sx| |sx mx ex], y as [sy|sy| |sy my ey]; simpl;
    try reflexivity;
    try (destruct sx; reflexivity); try (destruct sy; reflexivity);
    try (destruct sx, sy; reflexivity).
  destruct sx, sy; simpl; try reflexivity.
  rewrite Z.compare_opp, (Z.compare_antisym ex ey).
  destruct (ex ?= ey); reflexivity.
Qed.

Lemma lex3_antisym (a b : Z * Z * Z) : lex3 b a = CompOpp (lex3 a b).
Proof.
  destruct a as [[a1 a2] a3], b as [[b1 b2] b3]; unfold lex3.
  rewrite (Z.compare_antisym a1 b1), (Z.compare_antisym a2 b2),
    (Z.compare_antisym a3 b3).
  destruct (a1 ?= b1), (a2 ?= b2), (a3 ?= b3); reflexivity.
Qed.

Lemma lex3_le_lt_trans (a b c : Z * Z * Z) :
  lex3 a b <> Gt -> lex3 b c = Lt -> lex3 a c = Lt.
Proof.
  destruct a as [[a1 a2] a3], b as [[b1 b2] b3], c as [[c1 c2] c3]; unfold lex3.
  destruct (Z.compare_spec a1 b1), (Z.compare_spec b1 c1), (Z.compare_spec a1 c1);
    try lia; try congruence;
  destruct (Z.compare_spec a2 b2), (Z.compare_spec b2 c2), (Z.compare_spec a2 c2);
    try lia; try congruence;
  destruct (Z.compare_spec a3 b3), (Z.compare_spec b3 c3), (Z.compare_spec a3 c3);
    try lia; congruence.
Qed.

Lemma SFltb_SFleb (x y : spec_float) : SFltb x y = true -> SFleb x y = true.
Proof. unfold SFltb, SFleb. destruct (SFcompare x y) as [[]|]; congruence. Qed.

Lemma SFltb_not_SFleb (x y : spec_float) : SFltb x y = true -> SFleb y x = false.
Proof.
  unfold SFltb, SFleb. rewrite !SFcompare_key.
  destruct (SFkey x) as [a|], (SFkey y) as [b|]; try discriminate.
  rewrite (lex3_antisym a b). destruct (lex3 a b); simpl; congruence.
Qed.

Lemma SFleb_SFltb_trans (x y z : spec_float) :
  SFleb x y = true -> SFltb y z = true -> SFltb x z = true.
Proof.
  unfold SFltb, SFleb. rewrite !SFcompare_key.
  destruct (SFkey x) as [a|], (SFkey y) as [b|], (SFkey z) as [c|];
    try discriminate.
  intros Hab Hbc.
  rewrite (lex3_le_lt_trans a b c); trivial.
  - destruct (lex3 a b); congruence.
  - destruct (lex3 b c); congruence.
Qed.

(** The same facts on primitive floats, through their specification. *)
Lemma ltb_leb (x y : float) : (x <? y)%float = true -> (x <=? y)%float = true.
Proof. rewrite ltb_spec, leb_spec. apply SFltb_SFleb. Qed.

Lemma ltb_not_leb (x y : float) : (x <? y)%float = true -> (y <=? x)%float = false.
Proof. rewrite ltb_spec, leb_spec. apply SFltb_not_SFleb. Qed.

Lemma leb_not_ltb (x y : float) : (x <=? y)%float = true -> (y <? x)%float = false.
Proof.
  intros H. destruct (y <? x)%float eqn:E; trivial.
  apply ltb_not_leb in E. congruence.
Qed.

Lemma leb_ltb_trans (x y z : float) :
  (x <=? y)%float = true -> (y <? z)%float = true -> (x <? z)%float = true.
Proof. rewrite !ltb_spec, leb_spec. apply SFleb_SFltb_trans. Qed.

End FloatOrder.

(** ** The classifiers *)

Lemma zone_of_lst_range (t : float) :
  zone_of_lst t = 0 \/ zone_of_lst t = 1 \/ zone_of_lst t = 2.
Proof.
  unfold zone_of_lst.
  destruct (40 <=? t)%float; [now left |].
  destruct (34 <=? t)%float; [right; now left | right; now right].
Qed.

Lemma zone_of_lst_high (t : float) : (40 <=? t)%float = true -> zone_of_lst t = 0.
Proof. unfold zone_of_lst. now intros ->. Qed.

Lemma zone_of_lst_medium (t : float) :
  (34 <=? t)%float = true -> (t <? 40)%float = true -> zone_of_lst t = 1.
Proof.
  unfold zone_of_lst. intros H34 H40.
  now rewrite (ltb_not_leb _ _ H40), H34.
Qed.

Lemma zone_of_lst_low (t : float) : (t <? 34)%float = true -> zone_of_lst t = 2.
Proof.
  unfold zone_of_lst. intros H34.
  rewrite (ltb_not_leb _ _ H34).
  destruct (40 <=? t)%float eqn:H40; trivial.
  assert (H : (40 <? 34)%float = true) by (eapply leb_ltb_trans; eassumption).
  discriminate H.
Qed.

Example zone_of_lst_examples :
  zone_of_lst 41 = 0 /\ zone_of_lst 40 = 0 /\ zone_of_lst 35 = 1 /\
  zone_of_lst 34 = 1 /\ zone_of_lst 33.99 = 2 /\ zone_of_lst 20 = 2 /\
  zone_of_lst nan = 2.
Proof. repeat split. Qed.

(** The clamp of the loop body lands in [0.05, 0.85] whatever its input,
    NaN included. *)
Lemma clamp_bounds (raw : float) :
  let c := Py.max2 0.05 (Py.min2 0.85 raw) in
  (0.05 <=? c)%float = true /\ (c <=? 0.85)%float = true.
Proof.
  unfold Py.max2, Py.min2.
  destruct (raw <? 0.85)%float eqn:Hhi.
  - destruct (0.05 <? raw)%float eqn:Hlo.
    + split; apply ltb_leb; assumption.
    + split; reflexivity.
  - change (0.05 <? 0.85)%float with true. cbv iota. split; reflexivity.
Qed.

(** ** The generation loop *)

Lemma generate_point_results (w : Py.world) (g : generation) :
  exists p,
    results (generate_point w g) = results g ++ [p] /\
    temp_list (generate_point w g) = temp_list g ++ [lst p] /\
    ndvi_list (generate_point w g) = ndvi_list g ++ [ndvi p] /\
    derived_fields p /\ clamped_ndvi p.
Proof.
  unfold generate_point, Py.uniform, Py.random. cbv beta iota zeta.
  eexists. cbn [results temp_list ndvi_list].
  split; [reflexivity |]. cbn [lst ndvi zone vegetation color severity recommendation].
  split; [reflexivity |]. split; [reflexivity |].
  split.
  - unfold derived_fields.
    cbn [lst ndvi zone vegetation color severity recommendation].
    repeat split.
  - unfold clamped_ndvi, ndvi_formula. cbn [ndvi lst]. eexists. reflexivity.
Qed.

Lemma generate_point_invariant (w : Py.world) (g : generation) :
  generation_invariant g -> generation_invariant (generate_point w g).
Proof.
  intros (Hall & Htemp & Hndvi). unfold generation_invariant.
  destruct (generate_point_results w g) as (p & -> & -> & -> & Hd & Hc).
  split; [| split].
  - apply Forall_app. split; [assumption |]. constructor; [now split | constructor].
  - rewrite map_app, Htemp. reflexivity.
  - rewrite map_app, Hndvi. reflexivity.
Qed.

Lemma generate_invariant (w : Py.world) (n : nat) (g : generation) :
  generation_invariant g -> generation_invariant (generate w n g).
Proof.
  revert g. induction n as [|n IH]; intros g Hg; simpl; [assumption |].
  apply IH, generate_point_invariant, Hg.
Qed.

Lemma generation_start_invariant : generation_invariant generation_start.
Proof. repeat split. constructor. Qed.

Lemma generate_length (w : Py.world) (n : nat) (g : generation) :
  List.length (results (generate w n g)) = (n + List.length (results g))%nat.
Proof.
  revert g. induction n as [|n IH]; intros g; simpl; [reflexivity |].
  rewrite IH.
  destruct (generate_point_results w g) as (p & -> & _).
  rewrite length_app. simpl. lia.
Qed.

(** ** The second pass *)

Lemma update_uhi_spec (mean_temp : float) (l : list point) (acc : list float) :
  update_uhi mean_temp l acc =
  (map (centred mean_temp) l, acc ++ map (fun p => intensity_of (centred mean_temp p)) l).
Proof.
  revert acc. induction l as [|p l IH]; intros acc; simpl.
  - now rewrite app_nil_r.
  - rewrite IH, <- app_assoc. reflexivity.
Qed.

Lemma centred_lst (m : float) (p : point) : lst (centred m p) = lst p.
Proof. reflexivity. Qed.

Lemma centred_zone (m : float) (p : point) : zone (centred m p) = zone p.
Proof. reflexivity. Qed.

Lemma centred_derived (m : float) (p : point) :
  derived_fields p -> derived_fields (centred m p).
Proof. intros H. exact H. Qed.

Lemma centred_clamped (m : float) (p : point) :
  clamped_ndvi p -> clamped_ndvi (centred m p).
Proof. intros H. exact H. Qed.

Lemma map_lst_centred (m : float) (l : list point) :
  map lst (map (centred m) l) = map lst l.
Proof. rewrite map_map. apply map_ext. intros p. apply centred_lst. Qed.

(** ** Zone counts *)

Lemma count_zone_cons (p : point) (l : list point) (z : Z) :
  count_zone (p :: l) z = (if zone p =? z then 1 else 0) + count_zone l z.
Proof.
  unfold count_zone, Py.len. cbn [filter].
  generalize (filter (fun q => zone q =? z) l). intros l'.
  destruct (zone p =? z); cbn [List.length]; lia.
Qed.

Lemma count_zone_total (l : list point) :
  Forall (fun p => zone p = 0 \/ zone p = 1 \/ zone p = 2) l ->
  count_zone l 0 + count_zone l 1 + count_zone l 2 = Py.len l.
Proof.
  induction 1 as [|p l Hp _ IH].
  - reflexivity.
  - rewrite !count_zone_cons.
    replace (Py.len (p :: l)) with (1 + Py.len l)
      by (unfold Py.len; cbn [List.length]; lia).
    destruct Hp as [-> | [-> | ->]]; cbn [Z.eqb Pos.eqb]; lia.
Qed.

(** ** What a successful response was computed from *)

Lemma bind_ok {A B : Type} (m : Py.result A) (k : A -> Py.result B) (b : B) :
  Py.bind m k = Py.Ok b -> exists a, m = Py.Ok a /\ k a = Py.Ok b.
Proof. destruct m as [a|e]; simpl; [eauto | discriminate]. Qed.

Lemma truediv_ok (a : Py.num) (n : Z) (q : float) :
  Py.truediv a n = Py.Ok q -> n <> 0 /\ q = (Py.to_float a / Py.float_of_Z n)%float.
Proof.
  unfold Py.truediv. destruct (Z.eqb_spec n 0); [discriminate |].
  intros [= <-]. now split.
Qed.

Lemma compute_statistics_counts (w : Py.world) (points days : Z) (m : float)
    (rs : list point) (ts ns us : list float) (st : statistics_record) :
  compute_statistics w points days m rs ts ns us = Py.Ok st ->
  total_points st = points /\
  high_heat_zones st = count_zone rs 0 /\
  medium_heat_zones st = count_zone rs 1 /\
  low_heat_zones st = count_zone rs 2.
Proof.
  unfold compute_statistics. intros H.
  repeat (apply bind_ok in H; destruct H as (? & _ & H)).
  injection H as <-. repeat split.
Qed.

Lemma analyze_uhi_success (args : query) (w : Py.world) (data : list point)
    (st : statistics_record) :
  analyze_uhi args w = Success data st ->
  exists points days mean_temp,
    let g := generate w (Z.to_nat points) generation_start in
    Py.int (args_get args "points" 100) = Py.Ok points /\
    Py.int (args_get args "days" 30) = Py.Ok days /\
    Py.truediv (Py.sum (temp_list g)) (Py.len (temp_list g)) = Py.Ok mean_temp /\
    data = map (centred mean_temp) (results g) /\
    compute_statistics w points days mean_temp data (temp_list g) (ndvi_list g)
      (map (fun p => intensity_of (centred mean_temp p)) (results g)) = Py.Ok st.
Proof.
  unfold analyze_uhi.
  destruct (analyze_uhi_try args w) as [[rs s]|e] eqn:Htry; [| discriminate].
  intros [= -> ->]. unfold analyze_uhi_try in Htry.
  apply bind_ok in Htry. destruct Htry as (points & Hpoints & Htry).
  apply bind_ok in Htry. destruct Htry as (days & Hdays & Htry).
  cbv zeta in Htry.
  apply bind_ok in Htry. destruct Htry as (mean_temp & Hmean & Htry).
  rewrite update_uhi_spec in Htry. cbv iota beta in Htry.
  apply bind_ok in Htry. destruct Htry as (s & Hstat & [= <- <-]).
  exists points, days, mean_temp. cbv zeta. auto.
Qed.

Lemma analyze_uhi_facts (args : query) (w : Py.world) (data : list point)
    (st : statistics_record) :
  analyze_uhi args w = Success data st ->
  exists points mean_temp,
    Py.int (args_get args "points" 100) = Py.Ok points /\
    0 < points /\
    Py.len data = points /\
    Forall (fun p => derived_fields p /\ clamped_ndvi p) data /\
    Py.truediv (Py.sum (map lst data)) (Py.len data) = Py.Ok mean_temp /\
    Forall (fun p => uhi_intensity p = Py.Float (Py.round (lst p - mean_temp) 2)) data /\
    total_points st = points /\
    high_heat_zones st = count_zone data 0 /\
    medium_heat_zones st = count_zone data 1 /\
    low_heat_zones st = count_zone data 2.
Proof.
  intros H. apply analyze_uhi_success in H.
  destruct H as (points & days & mean_temp & H). cbv zeta in H.
  destruct H as (Hpoints & _ & Hmean & Hdata & Hstat).
  set (g := generate w (Z.to_nat points) generation_start) in *.
  assert (Hinv : generation_invariant g)
    by apply generate_invariant, generation_start_invariant.
  destruct Hinv as (Hall & Htemp & _).
  assert (Hlen : List.length (results g) = Z.to_nat points).
  { unfold g. rewrite generate_length. simpl. lia. }
  assert (Hlen' : Py.len data = Py.len (temp_list g)).
  { unfold Py.len. now rewrite Hdata, Htemp, !length_map. }
  assert (Hpos : 0 < points).
  { apply truediv_ok in Hmean. destruct Hmean as (Hnz & _).
    unfold Py.len in Hnz. rewrite Htemp, length_map, Hlen in Hnz. lia. }
  exists points, mean_temp.
  split; [assumption |]. split; [assumption |].
  split. { unfold Py.len. rewrite Hdata, length_map, Hlen. lia. }
  split.
  { rewrite Hdata. apply Forall_map. revert Hall. apply Forall_impl.
    intros p (Hd & Hc). split; [now apply centred_derived | now apply centred_clamped]. }
  split. { rewrite Hlen', Hdata, map_lst_centred, <- Htemp. assumption. }
  split. { rewrite Hdata. apply Forall_map. apply Forall_forall. reflexivity. }
  apply compute_statistics_counts in Hstat. assumption.
Qed.

(** A request for no point at all stops at the mean of the empty list. *)
Lemma analyze_uhi_no_point (args : query) (w : Py.world) (points days : Z) :
  Py.int (args_get args "points" 100) = Py.Ok points ->
  Py.int (args_get args "days" 30) = Py.Ok days ->
  points <= 0 ->
  analyze_uhi args w = Failure Py.ZeroDivisionError.
Proof.
  intros Hpoints Hdays Hle.
  unfold analyze_uhi, analyze_uhi_try. rewrite Hpoints, Hdays.
  cbn [Py.bind]. replace (Z.to_nat points) with 0%nat by lia.
  reflexivity.
Qed.

Lemma int_raises (a : Py.arg) (e : Py.exn) :
  Py.int a = Py.Raise e ->
  exists s, a = Py.Text s /\
    (e = Py.ValueError_int_literal s \/
     exists digits, e = Py.ValueError_int_max_str_digits digits).
Proof.
  destruct a as [s|z]; simpl; [| discriminate].
  intros H. exists s. split; [reflexivity |].
  unfold Py.int_of_string in H.
  destruct (match Py.lstrip s with
            | String "-" r => (true, r)
            | String "+" r => (false, r)
            | _ => (false, Py.lstrip s)
            end) as [neg rest].
  destruct (Py.scan_digits rest Py.AtStart 0 0) as [[[v digits] tail]|].
  - destruct (Py.max_str_digits <? digits)%nat.
    + injection H as <-. right. now exists digits.
    + destruct (Py.all_space tail); [discriminate |].
      injection H as <-. now left.
  - injection H as <-. now left.
Qed.

(** ** The claims *)

(** C1, as stated, fails: with [points = 0] the handler does not return a
    successful result with an empty observation list; the mean of the
    empty temperature list is computed, it divides by zero, and the
    response is the failure one. *)
Lemma C1_points_zero_is_a_failure :
  analyze_uhi (request_points "0") world_zero = Failure Py.ZeroDivisionError /\
  ~ (exists st, analyze_uhi (request_points "0") world_zero = Success [] st).
Proof.
  assert (H : analyze_uhi (request_points "0") world_zero
              = Failure Py.ZeroDivisionError) by (vm_compute; reflexivity).
  split; [exact H |]. intros (st & Hst). rewrite H in Hst. discriminate Hst.
Qed.

(** C1, amended: when the request parameter [points] is 0 (and [days] is
    an integer), no observation is generated, the mean over zero
    temperatures raises a division by zero, and the handler catches it and
    returns the failure response carrying that error, with no data and no
    statistics. *)
Theorem C1_points_zero_division_error (args : query) (w : Py.world) (days : Z) :
  Py.int (args_get args "points" 100) = Py.Ok 0 ->
  Py.int (args_get args "days" 30) = Py.Ok days ->
  analyze_uhi args w = Failure Py.ZeroDivisionError.
Proof.
  intros Hpoints Hdays.
  apply (analyze_uhi_no_point args w 0 days Hpoints Hdays). lia.
Qed.

Lemma C1_points_zero_division_error_witness :
  Py.int (args_get (request_points "0") "points" 100) = Py.Ok 0 /\
  Py.int (args_get (request_points "0") "days" 30) = Py.Ok 30 /\
  analyze_uhi (request_points "0") world_three = Failure Py.ZeroDivisionError.
Proof.
  split; [reflexivity |]. split; [reflexivity |].
  apply (C1_points_zero_division_error (request_points "0") world_three 30);
    reflexivity.
Defined.

(** C2: for every integer [points >= 0], a successful analysis result
    contains exactly [points] observations in its data sequence. *)
Theorem C2_data_has_points_observations (args : query) (w : Py.world)
    (points : Z) (data : list point) (st : statistics_record) :
  Py.int (args_get args "points" 100) = Py.Ok points ->
  0 <= points ->
  analyze_uhi args w = Success data st ->
  Py.len data = points.
Proof.
  intros Hpoints _ H. apply analyze_uhi_facts in H.
  destruct H as (points' & m & Hpoints' & _ & Hlen & _).
  congruence.
Qed.

Lemma C2_data_has_points_observations_witness :
  exists data st,
    analyze_uhi (request_points "3") world_three = Success data st /\
    Py.len data = 3.
Proof.
  eexists. eexists. split.
  - vm_compute. reflexivity.
  - eapply (C2_data_has_points_observations (request_points "3") world_three 3).
    + reflexivity.
    + lia.
    + vm_compute. reflexivity.
Defined.

(** C3, as stated, fails: a single observation at temperature 45.0 and
    vegetation index 0.1 is not classified "Barren/Sparse"; 0.1 is below
    the first breakpoint 0.2. *)
Lemma C3_hot_point_is_not_barren :
  exists p st,
    analyze_uhi (request_points "1") world_hot = Success [p] st /\
    lst p = 45%float /\
    ndvi p = 0.1%float /\
    vegetation p <> "Barren/Sparse".
Proof.
  eexists. eexists. split; [vm_compute; reflexivity |].
  cbn [lst ndvi vegetation]. repeat split. discriminate.
Qed.

(** C3, amended: for a single observation with temperature 45.0 and
    vegetation index 0.1, the pipeline produces zone = 0,
    vegetation_category = "Water/Built-up", color = "#ef4444", severity =
    "High", the urgent-greening recommendation (since ndvi < 0.3), and
    heat_intensity = 0.0 (its temperature equals the mean of the
    one-element set). *)
Theorem C3_single_hot_point (args : query) (w : Py.world) (p : point)
    (st : statistics_record) :
  analyze_uhi args w = Success [p] st ->
  lst p = 45%float ->
  ndvi p = 0.1%float ->
  zone p = 0 /\
  vegetation p = "Water/Built-up" /\
  color p = "#ef4444" /\
  severity p = "High" /\
  recommendation p = "Plant more trees and create green spaces urgently" /\
  uhi_intensity p = Py.Float 0.
Proof.
  intros H Hlst Hndvi. apply analyze_uhi_facts in H.
  destruct H as (points & m & _ & _ & _ & Hall & Hmean & Hint & _).
  apply Forall_inv in Hall. destruct Hall as ((Hz & Hv & Hc & Hs & Hr) & _).
  apply Forall_inv in Hint.
  apply truediv_ok in Hmean. destruct Hmean as (_ & Hm).
  cbn [map] in Hm. rewrite Hlst in Hm, Hz, Hint. rewrite Hndvi in Hv, Hr.
  assert (Hz0 : zone p = 0) by (rewrite Hz; reflexivity).
  rewrite Hz0 in Hc, Hs, Hr.
  assert (Hm45 : m = 45%float) by (rewrite Hm; vm_compute; reflexivity).
  rewrite Hm45 in Hint.
  repeat split; try assumption.
Qed.

Lemma C3_single_hot_point_witness :
  exists p st,
    analyze_uhi (request_points "1") world_hot = Success [p] st /\
    lst p = 45%float /\
    ndvi p = 0.1%float /\
    zone p = 0 /\
    vegetation p = "Water/Built-up" /\
    color p = "#ef4444" /\
    severity p = "High" /\
    recommendation p = "Plant more trees and create green spaces urgently" /\
    uhi_intensity p = Py.Float 0.
Proof.
  eexists. eexists.
  split; [vm_compute; reflexivity |].
  split; [reflexivity |]. split; [reflexivity |].
  eapply (C3_single_hot_point (request_points "1") world_hot);
    [vm_compute; reflexivity | reflexivity | reflexivity].
Defined.


(** C5: for every generated observation, the zone assignment matches the
    fixed thresholds: temperature >= 40 yields zone 0 (High), 34 <=
    temperature < 40 yields zone 1 (Medium), and temperature < 34 yields
    zone 2 (Low); consequently zone is always in {0, 1, 2}. *)
Theorem C5_zone_thresholds (args : query) (w : Py.world) (data : list point)
    (st : statistics_record) (p : point) :
  analyze_uhi args w = Success data st ->
  In p data ->
  ((40 <=? lst p)%float = true -> zone p = 0) /\
  ((34 <=? lst p)%float = true -> (lst p <? 40)%float = true -> zone p = 1) /\
  ((lst p <? 34)%float = true -> zone p = 2) /\
  (zone p = 0 \/ zone p = 1 \/ zone p = 2).
Proof.
  intros H Hin. apply analyze_uhi_facts in H.
  destruct H as (points & m & _ & _ & _ & Hall & _).
  rewrite Forall_forall in Hall. destruct (Hall p Hin) as ((-> & _) & _).
  split; [apply zone_of_lst_high |].
  split; [apply zone_of_lst_medium |].
  split; [apply zone_of_lst_low | apply zone_of_lst_range].
Qed.

Lemma C5_zone_thresholds_witness :
  exists p data st,
    analyze_uhi (request_points "1") world_hot = Success data st /\
    In p data /\
    (40 <=? lst p)%float = true /\
    zone p = 0.
Proof.
  eexists. eexists. eexists.
  split; [vm_compute; reflexivity |].
  split; [left; reflexivity |].
  split; [reflexivity |].
  eapply (C5_zone_thresholds (request_points "1") world_hot);
    [vm_compute; reflexivity | left; reflexivity | reflexivity].
Defined.

(** C6: the vegetation classifier maps any ndvi value by the fixed
    breakpoints: ndvi < 0.2 yields "Water/Built-up", 0.2 <= ndvi < 0.4
    yields "Barren/Sparse", 0.4 <= ndvi < 0.6 yields "Moderate
    Vegetation", and ndvi >= 0.6 yields "Dense Vegetation". *)
Theorem C6_vegetation_breakpoints (x : float) :
  ((x <? 0.2)%float = true -> classify_vegetation x = "Water/Built-up") /\
  ((0.2 <=? x)%float = true -> (x <? 0.4)%float = true ->
   classify_vegetation x = "Barren/Sparse") /\
  ((0.4 <=? x)%float = true -> (x <? 0.6)%float = true ->
   classify_vegetation x = "Moderate Vegetation") /\
  ((0.6 <=? x)%float = true -> classify_vegetation x = "Dense Vegetation").
Proof.
  unfold classify_vegetation. repeat split.
  - now intros ->.
  - intros Hlo Hhi. now rewrite (leb_not_ltb _ _ Hlo), Hhi.
  - intros Hlo Hhi.
    assert (H2 : (x <? 0.2)%float = false).
    { destruct (x <? 0.2)%float eqn:E; trivial.
      assert (F : (0.4 <? 0.2)%float = true) by (eapply leb_ltb_trans; eassumption).
      discriminate F. }
    now rewrite H2, (leb_not_ltb _ _ Hlo), Hhi.
  - intros Hlo.
    assert (H6 : (x <? 0.6)%float = false) by now apply leb_not_ltb.
    assert (H4 : (x <? 0.4)%float = false).
    { destruct (x <? 0.4)%float eqn:E; trivial.
      assert (F : (0.6 <? 0.4)%float = true) by (eapply leb_ltb_trans; eassumption).
      discriminate F. }
    assert (H2 : (x <? 0.2)%float = false).
    { destruct (x <? 0.2)%float eqn:E; trivial.
      assert (F : (0.6 <? 0.2)%float = true) by (eapply leb_ltb_trans; eassumption).
      discriminate F. }
    now rewrite H2, H4, H6.
Qed.

Lemma C6_vegetation_breakpoints_witness :
  classify_vegetation 0.15 = "Water/Built-up" /\
  classify_vegetation 0.2 = "Barren/Sparse" /\
  classify_vegetation 0.4 = "Moderate Vegetation" /\
  classify_vegetation 0.65 = "Dense Vegetation".
Proof.
  split; [| split; [| split]].
  - apply (proj1 (C6_vegetation_breakpoints 0.15)). reflexivity.
  - apply (proj1 (proj2 (C6_vegetation_breakpoints 0.2))); reflexivity.
  - apply (proj1 (proj2 (proj2 (C6_vegetation_breakpoints 0.4)))); reflexivity.
  - apply (proj2 (proj2 (proj2 (C6_vegetation_breakpoints 0.65)))). reflexivity.
Defined.

(** C7: the recommendation function implements exactly the 2-level
    decision: zone 0 with ndvi < 0.3 returns the urgent-greening message,
    zone 0 otherwise the ventilation/water-feature message, zone 1 with
    ndvi < 0.4 the increase-vegetation message, zone 1 otherwise the
    maintain-and-monitor message, and zone 2 the generic maintenance
    message without consulting the vegetation index. *)
Theorem C7_recommendation_decision (x : float) :
  ((x <? 0.3)%float = true ->
   get_recommendation 0 x = "Plant more trees and create green spaces urgently") /\
  ((x <? 0.3)%float = false ->
   get_recommendation 0 x = "Improve ventilation and add water features") /\
  ((x <? 0.4)%float = true ->
   get_recommendation 1 x = "Increase vegetation cover and add shade structures") /\
  ((x <? 0.4)%float = false ->
   get_recommendation 1 x = "Maintain current green cover and monitor temperature") /\
  get_recommendation 2 x = "Maintain existing vegetation and urban planning".
Proof.
  unfold get_recommendation. cbn [Z.eqb Pos.eqb].
  repeat split; now intros ->.
Qed.

Lemma C7_recommendation_decision_witness :
  get_recommendation 0 0.1 = "Plant more trees and create green spaces urgently" /\
  get_recommendation 0 0.3 = "Improve ventilation and add water features" /\
  get_recommendation 1 0.35 = "Increase vegetation cover and add shade structures" /\
  get_recommendation 1 0.4 = "Maintain current green cover and monitor temperature" /\
  get_recommendation 2 0.1 = get_recommendation 2 0.8.
Proof.
  split; [| split; [| split; [| split]]].
  - apply (proj1 (C7_recommendation_decision 0.1)). reflexivity.
  - apply (proj1 (proj2 (C7_recommendation_decision 0.3))). reflexivity.
  - apply (proj1 (proj2 (proj2 (C7_recommendation_decision 0.35)))). reflexivity.
  - apply (proj1 (proj2 (proj2 (proj2 (C7_recommendation_decision 0.4))))).
    reflexivity.
  - rewrite (proj2 (proj2 (proj2 (proj2 (C7_recommendation_decision 0.1))))).
    rewrite (proj2 (proj2 (proj2 (proj2 (C7_recommendation_decision 0.8))))).
    reflexivity.
Defined.

(** C8, as stated, fails in its second half: the heat intensities are
    rounded to two decimals, so their sum need not be near zero.  Three
    observations at 28.0, 28.0 and 28.01 get the intensities -0.0, -0.0
    and 0.01, whose sum is 0.01 -- a hundredth, not a rounding residue. *)
Lemma C8_intensities_sum_to_a_hundredth :
  exists data st,
    analyze_uhi (request_points "3") world_three = Success data st /\
    map lst data = [28; 28; 28.01]%float /\
    map intensity_of data = [-0; -0; 0.01]%float /\
    Py.sum (map intensity_of data) = Py.Float 0.01 /\
    (abs 0.01 <=? 1e-9)%float = false.
Proof.
  eexists. eexists. split; [vm_compute; reflexivity |].
  repeat split.
Qed.

(** C8, amended: for every non-empty observation set, each observation's
    heat_intensity equals round(temperature - mean_temperature, 2) where
    mean_temperature is the sum of all temperatures divided by their
    number.  (Nothing is claimed about the sum of the rounded
    intensities.) *)
Theorem C8_heat_intensity (args : query) (w : Py.world) (data : list point)
    (st : statistics_record) :
  analyze_uhi args w = Success data st ->
  data <> [] /\
  exists mean_temperature,
    Py.truediv (Py.sum (map lst data)) (Py.len data) = Py.Ok mean_temperature /\
    forall p, In p data ->
      uhi_intensity p = Py.Float (Py.round (lst p - mean_temperature) 2).
Proof.
  intros H. apply analyze_uhi_facts in H.
  destruct H as (points & m & _ & Hpos & Hlen & _ & Hmean & Hint & _).
  split.
  - intros ->. unfold Py.len in Hlen. simpl in Hlen. lia.
  - exists m. split; [assumption |]. now apply Forall_forall.
Qed.

Lemma C8_heat_intensity_witness :
  exists data st,
    analyze_uhi (request_points "3") world_three = Success data st /\
    data <> [] /\
    exists mean_temperature,
      Py.truediv (Py.sum (map lst data)) (Py.len data) = Py.Ok mean_temperature /\
      forall p, In p data ->
        uhi_intensity p = Py.Float (Py.round (lst p - mean_temperature) 2).
Proof.
  eexists. eexists. split; [vm_compute; reflexivity |].
  eapply (C8_heat_intensity (request_points "3") world_three).
  vm_compute. reflexivity.
Defined.

(** C9: in every successful result, the three zone counts in the
    statistics record (high_heat_zones + medium_heat_zones +
    low_heat_zones) sum exactly to points. *)
Theorem C9_zone_counts_sum_to_points (args : query) (w : Py.world)
    (data : list point) (st : statistics_record) :
  analyze_uhi args w = Success data st ->
  Py.int (args_get args "points" 100) = Py.Ok (total_points st) /\
  high_heat_zones st + medium_heat_zones st + low_heat_zones st = total_points st.
Proof.
  intros H. apply analyze_uhi_facts in H.
  destruct H as (points & m & Hpoints & _ & Hlen & Hall & _ & _
                 & -> & -> & -> & ->).
  split; [assumption |]. rewrite <- Hlen.
  apply count_zone_total. revert Hall. apply Forall_impl.
  intros p ((-> & _) & _). apply zone_of_lst_range.
Qed.

Lemma C9_zone_counts_sum_to_points_witness :
  exists data st,
    analyze_uhi (request_points "3") world_three = Success data st /\
    Py.int (args_get (request_points "3") "points" 100) = Py.Ok (total_points st) /\
    high_heat_zones st + medium_heat_zones st + low_heat_zones st = total_points st.
Proof.
  eexists. eexists. split; [vm_compute; reflexivity |].
  eapply (C9_zone_counts_sum_to_points (request_points "3") world_three).
  vm_compute. reflexivity.
Defined.

(** C10: for every generated observation, the vegetation_index lies in
    the closed interval [0.05, 0.85] (the clamp is applied after the
    anti-correlation formula). *)
Theorem C10_vegetation_index_range (args : query) (w : Py.world)
    (data : list point) (st : statistics_record) (p : point) :
  analyze_uhi args w = Success data st ->
  In p data ->
  (0.05 <=? ndvi p)%float = true /\ (ndvi p <=? 0.85)%float = true /\
  exists v, ndvi p = ndvi_formula v (lst p).
Proof.
  intros H Hin. apply analyze_uhi_facts in H.
  destruct H as (points & m & _ & _ & _ & Hall & _).
  rewrite Forall_forall in Hall. destruct (Hall p Hin) as (_ & v & Hv).
  rewrite <- and_assoc. split; [| now exists v].
  rewrite Hv. apply clamp_bounds.
Qed.

Lemma C10_vegetation_index_range_witness :
  exists p data st,
    analyze_uhi (request_points "1") world_hot = Success data st /\
    In p data /\
    (0.05 <=? ndvi p)%float = true /\ (ndvi p <=? 0.85)%float = true /\
    exists v, ndvi p = ndvi_formula v (lst p).
Proof.
  eexists. eexists. eexists.
  split; [vm_compute; reflexivity |].
  split; [left; reflexivity |].
  eapply (C10_vegetation_index_range (request_points "1") world_hot);
    [vm_compute; reflexivity | left; reflexivity].
Defined.

(** ** Further properties of the classifiers *)

Lemma lex3_le_trans (a b c : Z * Z * Z) :
  lex3 a b <> Gt -> lex3 b c <> Gt -> lex3 a c <> Gt.
Proof.
  destruct a as [[a1 a2] a3], b as [[b1 b2] b3], c as [[c1 c2] c3]; unfold lex3.
  destruct (Z.compare_spec a1 b1), (Z.compare_spec b1 c1), (Z.compare_spec a1 c1);
    try lia; try congruence;
  destruct (Z.compare_spec a2 b2), (Z.compare_spec b2 c2), (Z.compare_spec a2 c2);
    try lia; try congruence;
  destruct (Z.compare_spec a3 b3), (Z.compare_spec b3 c3), (Z.compare_spec a3 c3);
    try lia; congruence.
Qed.

Lemma SFleb_trans (x y z : spec_float) :
  SFleb x y = true -> SFleb y z = true -> SFleb x z = true.
Proof.
  unfold SFleb. rewrite !SFcompare_key.
  destruct (SFkey x) as [a|], (SFkey y) as [b|], (SFkey z) as [c|];
    try discriminate.
  intros Hab Hbc.
  assert (H : lex3 a c <> Gt).
  { apply (lex3_le_trans a b c).
    - destruct (lex3 a b); congruence.
    - destruct (lex3 b c); congruence. }
  destruct (lex3 a c); congruence.
Qed.

Lemma leb_trans (x y z : float) :
  (x <=? y)%float = true -> (y <=? z)%float = true -> (x <=? z)%float = true.
Proof. rewrite !leb_spec. apply SFleb_trans. Qed.

Lemma zone_of_lst_antitone (a b : float) :
  (a <=? b)%float = true -> zone_of_lst b <= zone_of_lst a.
Proof.
  intros Hab. unfold zone_of_lst.
  destruct (40 <=? a)%float eqn:Ha40.
  - now rewrite (leb_trans _ _ _ Ha40 Hab).
  - destruct (34 <=? a)%float eqn:Ha34.
    + rewrite (leb_trans _ _ _ Ha34 Hab). destruct (40 <=? b)%float; lia.
    + destruct (40 <=? b)%float; [lia |]. destruct (34 <=? b)%float; lia.
Qed.

Lemma successful_points_are_derived (args : query) (w : Py.world)
    (data : list point) (st : statistics_record) (p : point) :
  analyze_uhi args w = Success data st -> In p data -> derived_fields p.
Proof.
  intros H Hin. apply analyze_uhi_facts in H.
  destruct H as (points & m & _ & _ & _ & Hall & _).
  rewrite Forall_forall in Hall. now destruct (Hall p Hin).
Qed.

(** X1: the colour and severity tables fall back to gray and "Unknown"
    exactly for the zones other than 0, 1 and 2. *)
Theorem X1_table_fallback (z : Z) :
  (get_zone_color z = "#9ca3af" <-> z <> 0 /\ z <> 1 /\ z <> 2) /\
  (get_severity z = "Unknown" <-> z <> 0 /\ z <> 1 /\ z <> 2).
Proof.
  unfold get_zone_color, get_severity, dict_get.
  destruct (Z.eqb_spec 0 z) as [<-|H0].
  { split; (split; [discriminate | intros (F & _); now elim F]). }
  destruct (Z.eqb_spec 1 z) as [<-|H1].
  { split; (split; [discriminate | intros (_ & F & _); now elim F]). }
  destruct (Z.eqb_spec 2 z) as [<-|H2].
  { split; (split; [discriminate | intros (_ & _ & F); now elim F]). }
  split; (split; [intros _; repeat split; congruence | reflexivity]).
Qed.

(** X2: no observation of a successful result carries a fallback value:
    its zone, colour and severity are one of the three rows of the
    tables. *)
Theorem X2_no_fallback_in_results (args : query) (w : Py.world)
    (data : list point) (st : statistics_record) (p : point) :
  analyze_uhi args w = Success data st ->
  In p data ->
  (zone p = 0 /\ color p = "#ef4444" /\ severity p = "High") \/
  (zone p = 1 /\ color p = "#f97316" /\ severity p = "Medium") \/
  (zone p = 2 /\ color p = "#22c55e" /\ severity p = "Low").
Proof.
  intros H Hin.
  destruct (successful_points_are_derived args w data st p H Hin)
    as (Hz & _ & -> & -> & _).
  destruct (zone_of_lst_range (lst p)) as [E | [E | E]];
    rewrite Hz, E; [left | right; left | right; right]; repeat split.
Qed.

Lemma X2_no_fallback_in_results_witness :
  exists p data st,
    analyze_uhi (request_points "2") world_hot = Success data st /\
    In p data /\
    ((zone p = 0 /\ color p = "#ef4444" /\ severity p = "High") \/
     (zone p = 1 /\ color p = "#f97316" /\ severity p = "Medium") \/
     (zone p = 2 /\ color p = "#22c55e" /\ severity p = "Low")).
Proof.
  eexists. eexists. eexists.
  split; [vm_compute; reflexivity |].
  split; [right; left; reflexivity |].
  eapply (X2_no_fallback_in_results (request_points "2") world_hot);
    [vm_compute; reflexivity | right; left; reflexivity].
Defined.

(** X3: the derived fields of an observation depend on nothing but its
    own temperature and vegetation index: two observations, of the same
    result or of two different ones, that agree on both agree on zone,
    category, colour, severity and recommendation. *)
Theorem X3_derived_fields_are_local (args1 args2 : query) (w1 w2 : Py.world)
    (data1 data2 : list point) (st1 st2 : statistics_record) (p q : point) :
  analyze_uhi args1 w1 = Success data1 st1 ->
  analyze_uhi args2 w2 = Success data2 st2 ->
  In p data1 -> In q data2 ->
  lst p = lst q -> ndvi p = ndvi q ->
  zone p = zone q /\ vegetation p = vegetation q /\ color p = color q /\
  severity p = severity q /\ recommendation p = recommendation q.
Proof.
  intros H1 H2 Hp Hq Hlst Hndvi.
  destruct (successful_points_are_derived _ _ _ _ p H1 Hp)
    as (Hz & -> & -> & -> & ->).
  destruct (successful_points_are_derived _ _ _ _ q H2 Hq)
    as (Hz' & -> & -> & -> & ->).
  assert (E : zone p = zone q) by now rewrite Hz, Hz', Hlst.
  now rewrite E, Hndvi.
Qed.

Lemma X3_derived_fields_are_local_witness :
  exists p q data1 st1 data2 st2,
    analyze_uhi (request_points "3") world_three = Success data1 st1 /\
    analyze_uhi (request_points "1") world_zero = Success data2 st2 /\
    In p data1 /\ In q data2 /\
    lst p = lst q /\ ndvi p = ndvi q /\
    zone p = zone q /\ vegetation p = vegetation q /\ color p = color q /\
    severity p = severity q /\ recommendation p = recommendation q.
Proof.
  do 6 eexists.
  split; [vm_compute; reflexivity |].
  split; [vm_compute; reflexivity |].
  split; [right; left; reflexivity |].
  split; [left; reflexivity |].
  split; [reflexivity |]. split; [reflexivity |].
  eapply (X3_derived_fields_are_local (request_points "3") (request_points "1")
            world_three world_zero);
    [vm_compute; reflexivity | vm_compute; reflexivity
     | right; left; reflexivity | left; reflexivity | reflexivity | reflexivity].
Defined.

(** X4: the zone never increases with the temperature: of two
    observations of a result, the hotter one has the lower or the same
    zone number. *)
Theorem X4_hotter_means_lower_zone (args : query) (w : Py.world)
    (data : list point) (st : statistics_record) (p q : point) :
  analyze_uhi args w = Success data st ->
  In p data -> In q data ->
  (lst p <=? lst q)%float = true ->
  zone q <= zone p.
Proof.
  intros H Hp Hq Hle.
  destruct (successful_points_are_derived _ _ _ _ p H Hp) as (-> & _).
  destruct (successful_points_are_derived _ _ _ _ q H Hq) as (-> & _).
  now apply zone_of_lst_antitone.
Qed.

Lemma X4_hotter_means_lower_zone_witness :
  exists p q data st,
    analyze_uhi (request_points "2") world_hot = Success data st /\
    In p data /\ In q data /\
    (lst p <=? lst q)%float = true /\
    zone p = 2 /\ zone q = 0 /\ zone q <= zone p.
Proof.
  do 4 eexists.
  split; [vm_compute; reflexivity |].
  split; [right; left; reflexivity |].
  split; [left; reflexivity |].
  split; [reflexivity |]. split; [reflexivity |]. split; [reflexivity |].
  eapply (X4_hotter_means_lower_zone (request_points "2") world_hot);
    [vm_compute; reflexivity | right; left; reflexivity | left; reflexivity
     | reflexivity].
Defined.

(** X5: the vegetation classifier is monotone: a larger index never gets
    a barer category. *)
Theorem X5_vegetation_is_monotone (a b : float) :
  (a <=? b)%float = true ->
  category_rank (classify_vegetation a) <= category_rank (classify_vegetation b).
Proof.
  intros Hab. unfold classify_vegetation.
  assert (Hlt : forall c, (b <? c)%float = true -> (a <? c)%float = true)
    by (intros c; now apply leb_ltb_trans).
  destruct (b <? 0.2)%float eqn:Hb2.
  { now rewrite (Hlt _ Hb2). }
  destruct (b <? 0.4)%float eqn:Hb4.
  { rewrite (Hlt _ Hb4). destruct (a <? 0.2)%float; cbn; lia. }
  destruct (b <? 0.6)%float eqn:Hb6.
  { rewrite (Hlt _ Hb6). destruct (a <? 0.2)%float, (a <? 0.4)%float; cbn; lia. }
  destruct (a <? 0.2)%float, (a <? 0.4)%float, (a <? 0.6)%float; cbn; lia.
Qed.

Lemma X5_vegetation_is_monotone_witness :
  (0.35 <=? 0.62)%float = true /\
  category_rank (classify_vegetation 0.35) = 1 /\
  category_rank (classify_vegetation 0.62) = 3 /\
  category_rank (classify_vegetation 0.35)
    <= category_rank (classify_vegetation 0.62).
Proof.
  split; [reflexivity |]. split; [reflexivity |]. split; [reflexivity |].
  apply (X5_vegetation_is_monotone 0.35 0.62). reflexivity.
Defined.

(** ** Further properties of the statistics *)

Lemma compute_statistics_ok (w : Py.world) (points days : Z) (m : float)
    (rs : list point) (ts ns us : list float) (st : statistics_record) :
  compute_statistics w points days m rs ts ns us = Py.Ok st ->
  exists tmin tmax squares variance nmin nmax navg umin umax uavg delta start,
    Py.min ts = Py.Ok tmin /\ Py.max ts = Py.Ok tmax /\
    sum_squared_deviations m ts (Py.Int 0) = Py.Ok squares /\
    Py.truediv squares (Py.len ts) = Py.Ok variance /\
    Py.min ns = Py.Ok nmin /\ Py.max ns = Py.Ok nmax /\
    Py.truediv (Py.sum ns) (Py.len ns) = Py.Ok navg /\
    Py.min us = Py.Ok umin /\ Py.max us = Py.Ok umax /\
    Py.truediv (Py.sum us) (Py.len us) = Py.Ok uavg /\
    Py.timedelta days = Py.Ok delta /\
    Py.datetime_sub (Py.now w 0) delta = Py.Ok start /\
    temperature st =
      {| min_lst := Py.round tmin 1; max_lst := Py.round tmax 1;
         avg_lst := Py.round m 1;
         std_lst := Py.round (Py.pow_half variance) 1 |} /\
    vegetation_summary st =
      {| min_ndvi := Py.round nmin 3; max_ndvi := Py.round nmax 3;
         avg_ndvi := Py.round navg 3 |} /\
    uhi st =
      {| min_intensity := Py.round umin 1; max_intensity := Py.round umax 1;
         avg_intensity := Py.round uavg 1 |} /\
    date_range st =
      {| start_date := start; end_date := Py.now w 1; image_date := Py.now w 2 |}.
Proof.
  unfold compute_statistics. intros H.
  apply bind_ok in H. destruct H as (tmin & Htmin & H).
  apply bind_ok in H. destruct H as (tmax & Htmax & H).
  apply bind_ok in H. destruct H as (squares & Hsq & H).
  apply bind_ok in H. destruct H as (variance & Hvar & H).
  apply bind_ok in H. destruct H as (nmin & Hnmin & H).
  apply bind_ok in H. destruct H as (nmax & Hnmax & H).
  apply bind_ok in H. destruct H as (navg & Hnavg & H).
  apply bind_ok in H. destruct H as (umin & Humin & H).
  apply bind_ok in H. destruct H as (umax & Humax & H).
  apply bind_ok in H. destruct H as (uavg & Huavg & H).
  apply bind_ok in H. destruct H as (delta & Hdelta & H).
  apply bind_ok in H. destruct H as (start & Hstart & H).
  injection H as <-.
  exists tmin, tmax, squares, variance, nmin, nmax, navg, umin, umax, uavg,
    delta, start.
  repeat (split; [assumption |]). repeat split.
Qed.

Lemma map_ndvi_centred (m : float) (l : list point) :
  map ndvi (map (centred m) l) = map ndvi l.
Proof. rewrite map_map. apply map_ext. reflexivity. Qed.

(** A successful response, with the side lists of the loop expressed by
    the observations returned. *)
Lemma analyze_uhi_statistics (args : query) (w : Py.world) (data : list point)
    (st : statistics_record) :
  analyze_uhi args w = Success data st ->
  exists points days mean_temp,
    Py.int (args_get args "points" 100) = Py.Ok points /\
    Py.int (args_get args "days" 30) = Py.Ok days /\
    Py.truediv (Py.sum (map lst data)) (Py.len data) = Py.Ok mean_temp /\
    data = map (centred mean_temp)
             (results (generate w (Z.to_nat points) generation_start)) /\
    compute_statistics w points days mean_temp data (map lst data)
      (map ndvi data) (map intensity_of data) = Py.Ok st.
Proof.
  intros H. apply analyze_uhi_success in H.
  destruct H as (points & days & m & H). cbv zeta in H.
  destruct H as (Hpoints & Hdays & Hmean & Hdata & Hstat).
  set (g := generate w (Z.to_nat points) generation_start) in *.
  assert (Hinv : generation_invariant g)
    by apply generate_invariant, generation_start_invariant.
  destruct Hinv as (_ & Htemp & Hndvi).
  assert (Elst : map lst data = temp_list g)
    by now rewrite Hdata, map_lst_centred.
  assert (Endvi : map ndvi data = ndvi_list g)
    by now rewrite Hdata, map_ndvi_centred.
  assert (Euhi : map intensity_of data
                 = map (fun p => intensity_of (centred m p)) (results g))
    by now rewrite Hdata, map_map.
  assert (Elen : Py.len data = Py.len (temp_list g))
    by (unfold Py.len; now rewrite <- Elst, length_map).
  exists points, days, m.
  rewrite Elst, Endvi, Euhi, Elen. auto.
Qed.



Lemma ok_injective {A : Type} (m : Py.result A) (a b : A) :
  m = Py.Ok a -> m = Py.Ok b -> a = b.
Proof. congruence. Qed.

(** X7: [days] only moves the date window: two successful requests for
    the same number of points under the same generator return the same
    observations and the same aggregates, whatever their [days]. *)
Theorem X7_days_only_moves_the_window (args1 args2 : query) (w : Py.world)
    (data1 data2 : list point) (st1 st2 : statistics_record) :
  Py.int (args_get args1 "points" 100) = Py.int (args_get args2 "points" 100) ->
  analyze_uhi args1 w = Success data1 st1 ->
  analyze_uhi args2 w = Success data2 st2 ->
  data1 = data2 /\ same_aggregates st1 st2.
Proof.
  intros Hsame H1 H2.
  apply analyze_uhi_statistics in H1, H2.
  destruct H1 as (q1 & d1 & m1 & Hq1 & _ & Hmean1 & Hdata1 & Hstat1).
  destruct H2 as (q2 & d2 & m2 & Hq2 & _ & Hmean2 & Hdata2 & Hstat2).
  assert (Eq : q2 = q1) by congruence.
  assert (Elst : map lst data2 = map lst data1).
  { rewrite Hdata1, Hdata2, !map_lst_centred, Eq. reflexivity. }
  assert (Elen : Py.len data2 = Py.len data1).
  { unfold Py.len. now rewrite <- (length_map lst data2), Elst, length_map. }
  assert (Em : m2 = m1).
  { rewrite Elst, Elen in Hmean2. exact (ok_injective _ _ _ Hmean2 Hmean1). }
  assert (Ed : data2 = data1).
  { rewrite Hdata1, Hdata2, Em, Eq. reflexivity. }
  rewrite Ed, Em, Eq in Hstat2. clear Hdata1 Hdata2 Hmean1 Hmean2 Elst Elen.
  split; [now symmetry |].
  pose proof (compute_statistics_counts _ _ _ _ _ _ _ _ _ Hstat1)
    as (Ht1 & Hh1 & Hm1 & Hl1).
  pose proof (compute_statistics_counts _ _ _ _ _ _ _ _ _ Hstat2)
    as (Ht2 & Hh2 & Hm2 & Hl2).
  apply compute_statistics_ok in Hstat1, Hstat2.
  destruct Hstat1 as (tmin & tmax & sq & var & nmin & nmax & navg & umin & umax
    & uavg & _ & _ & A1 & A2 & A3 & A4 & A5 & A6 & A7 & A8 & A9 & A10 & _ & _
    & Et1 & Ev1 & Eu1 & _).
  destruct Hstat2 as (tmin' & tmax' & sq' & var' & nmin' & nmax' & navg' & umin'
    & umax' & uavg' & _ & _ & B1 & B2 & B3 & B4 & B5 & B6 & B7 & B8 & B9 & B10
    & _ & _ & Et2 & Ev2 & Eu2 & _).
  rewrite (ok_injective _ _ _ B1 A1), (ok_injective _ _ _ B2 A2) in Et2.
  assert (Esq : sq' = sq) by exact (ok_injective _ _ _ B3 A3).
  rewrite Esq in B4.
  rewrite (ok_injective _ _ _ B4 A4) in Et2.
  rewrite (ok_injective _ _ _ B5 A5), (ok_injective _ _ _ B6 A6),
    (ok_injective _ _ _ B7 A7) in Ev2.
  rewrite (ok_injective _ _ _ B8 A8), (ok_injective _ _ _ B9 A9),
    (ok_injective _ _ _ B10 A10) in Eu2.
  unfold same_aggregates. repeat split; congruence.
Qed.

Lemma X7_days_only_moves_the_window_witness :
  exists data1 st1 data2 st2,
    analyze_uhi (request_points_days "2" "7") world_hot = Success data1 st1 /\
    analyze_uhi (request_points_days "2" "365") world_hot = Success data2 st2 /\
    start_date (date_range st1) <> start_date (date_range st2) /\
    data1 = data2 /\ same_aggregates st1 st2.
Proof.
  do 4 eexists.
  split; [vm_compute; reflexivity |].
  split; [vm_compute; reflexivity |].
  split; [cbn [date_range start_date]; lia |].
  eapply (X7_days_only_moves_the_window (request_points_days "2" "7")
            (request_points_days "2" "365") world_hot);
    [reflexivity | vm_compute; reflexivity | vm_compute; reflexivity].
Defined.

Lemma timedelta_ok (d delta : Z) :
  Py.timedelta d = Py.Ok delta -> delta = d /\ Z.abs d <= 999999999.
Proof.
  unfold Py.timedelta, Py.max_delta_days.
  destruct (Z.leb_spec (Z.abs d) 999999999); [| discriminate].
  intros [= <-]. now split.
Qed.

Lemma datetime_sub_ok (t delta r : Z) :
  Py.datetime_sub t delta = Py.Ok r -> r = t - delta /\ 1 <= r <= 3652059.
Proof.
  unfold Py.datetime_sub, Py.max_ordinal.
  destruct (Z.leb_spec 1 (t - delta)); [| discriminate].
  destruct (Z.leb_spec (t - delta) 3652059); [| discriminate].
  intros [= <-]. lia.
Qed.

(** X8: in a successful result the date window is the one [days] asks
    for: it starts [days] days before the first reading of the clock and
    ends on the second one, [days] is within a [timedelta] (at most
    999999999 in magnitude) and the start is a representable date. *)
Theorem X8_date_window (args : query) (w : Py.world) (data : list point)
    (st : statistics_record) :
  analyze_uhi args w = Success data st ->
  exists days,
    Py.int (args_get args "days" 30) = Py.Ok days /\
    Z.abs days <= 999999999 /\
    start_date (date_range st) = Py.now w 0 - days /\
    1 <= start_date (date_range st) <= 3652059 /\
    end_date (date_range st) = Py.now w 1 /\
    image_date (date_range st) = Py.now w 2.
Proof.
  intros H. apply analyze_uhi_statistics in H.
  destruct H as (points & days & mean & _ & Hdays & _ & _ & Hstat).
  apply compute_statistics_ok in Hstat.
  destruct Hstat as (tmin & tmax & sq & var & nmin & nmax & navg & umin & umax
    & uavg & delta & start & _ & _ & _ & _ & _ & _ & _ & _ & _ & _
    & Hdelta & Hstart & _ & _ & _ & Hrange).
  apply timedelta_ok in Hdelta. destruct Hdelta as (-> & Habs).
  apply datetime_sub_ok in Hstart. destruct Hstart as (Hstart & Hbounds).
  exists days. rewrite Hrange. cbn [start_date end_date image_date].
  split; [assumption |]. split; [assumption |]. split; [assumption |].
  split; [assumption |]. split; reflexivity.
Qed.

Lemma X8_date_window_witness :
  exists data st,
    analyze_uhi (request_points_days "2" "365") world_hot = Success data st /\
    date_range st =
      {| start_date := 739635; end_date := 740000; image_date := 740000 |} /\
    exists days,
      Py.int (args_get (request_points_days "2" "365") "days" 30) = Py.Ok days /\
      Z.abs days <= 999999999 /\
      start_date (date_range st) = Py.now world_hot 0 - days /\
      1 <= start_date (date_range st) <= 3652059 /\
      end_date (date_range st) = Py.now world_hot 1 /\
      image_date (date_range st) = Py.now world_hot 2.
Proof.
  eexists. eexists.
  split; [vm_compute; reflexivity |]. split; [reflexivity |].
  eapply (X8_date_window (request_points_days "2" "365") world_hot).
  vm_compute. reflexivity.
Defined.

(** ** Which errors a request for at least one point can end in *)

Lemma bind_raise {A B : Type} (m : Py.result A) (k : A -> Py.result B)
    (e : Py.exn) :
  Py.bind m k = Py.Raise e ->
  m = Py.Raise e \/ exists a, m = Py.Ok a /\ k a = Py.Raise e.
Proof. destruct m as [a|e']; simpl; [eauto | intros [= ->]; now left]. Qed.

Lemma min_raise (l : list float) (e : Py.exn) : Py.min l = Py.Raise e -> l = [].
Proof. destruct l; [reflexivity | discriminate]. Qed.

Lemma max_raise (l : list float) (e : Py.exn) : Py.max l = Py.Raise e -> l = [].
Proof. destruct l; [reflexivity | discriminate]. Qed.

Lemma truediv_raise (a : Py.num) (n : Z) (e : Py.exn) :
  Py.truediv a n = Py.Raise e -> n = 0.
Proof. unfold Py.truediv. destruct (Z.eqb_spec n 0); [trivial | discriminate]. Qed.

Lemma len_zero {A : Type} (l : list A) : Py.len l = 0 -> l = [].
Proof. destruct l; [reflexivity |]. unfold Py.len. cbn [List.length]. lia. Qed.

Lemma sum_squared_deviations_raise (m : float) (l : list float) (acc : Py.num)
    (e : Py.exn) :
  sum_squared_deviations m l acc = Py.Raise e -> e = Py.OverflowError_pow.
Proof.
  revert acc. induction l as [|t l IH]; intros acc; simpl; [discriminate |].
  intros H. apply bind_raise in H. destruct H as [H | (sq & _ & H)].
  - unfold Py.pow2 in H.
    destruct (is_infinity ((t - m) * (t - m)) && negb (is_infinity (t - m)));
      congruence.
  - now apply IH in H.
Qed.

Lemma timedelta_raise (d : Z) (e : Py.exn) :
  Py.timedelta d = Py.Raise e -> e = Py.OverflowError_timedelta.
Proof. unfold Py.timedelta. destruct (Z.abs d <=? Py.max_delta_days); congruence. Qed.

Lemma datetime_sub_raise (t delta : Z) (e : Py.exn) :
  Py.datetime_sub t delta = Py.Raise e -> e = Py.OverflowError_date.
Proof.
  unfold Py.datetime_sub.
  destruct ((1 <=? t - delta) && (t - delta <=? Py.max_ordinal)); congruence.
Qed.

Lemma compute_statistics_raise (w : Py.world) (points days : Z) (m : float)
    (rs : list point) (ts ns us : list float) (e : Py.exn) :
  ts <> [] -> ns <> [] -> us <> [] ->
  compute_statistics w points days m rs ts ns us = Py.Raise e ->
  e = Py.OverflowError_pow \/ e = Py.OverflowError_timedelta \/
  e = Py.OverflowError_date.
Proof.
  intros Hts Hns Hus H. unfold compute_statistics in H.
  apply bind_raise in H. destruct H as [H | (tmin & _ & H)].
  { now apply min_raise in H. }
  apply bind_raise in H. destruct H as [H | (tmax & _ & H)].
  { now apply max_raise in H. }
  apply bind_raise in H. destruct H as [H | (squares & _ & H)].
  { left. now apply sum_squared_deviations_raise in H. }
  apply bind_raise in H. destruct H as [H | (variance & _ & H)].
  { apply truediv_raise, len_zero in H. contradiction. }
  apply bind_raise in H. destruct H as [H | (nmin & _ & H)].
  { now apply min_raise in H. }
  apply bind_raise in H. destruct H as [H | (nmax & _ & H)].
  { now apply max_raise in H. }
  apply bind_raise in H. destruct H as [H | (navg & _ & H)].
  { apply truediv_raise, len_zero in H. contradiction. }
  apply bind_raise in H. destruct H as [H | (umin & _ & H)].
  { now apply min_raise in H. }
  apply bind_raise in H. destruct H as [H | (umax & _ & H)].
  { now apply max_raise in H. }
  apply bind_raise in H. destruct H as [H | (uavg & _ & H)].
  { apply truediv_raise, len_zero in H. contradiction. }
  apply bind_raise in H. destruct H as [H | (delta & _ & H)].
  { right. left. now apply timedelta_raise in H. }
  apply bind_raise in H. destruct H as [H | (start & _ & H)].
  { right. right. now apply datetime_sub_raise in H. }
  discriminate H.
Qed.

Lemma map_nonempty {A B : Type} (f : A -> B) (l : list A) :
  l <> [] -> map f l <> [].
Proof. destruct l; [congruence | discriminate]. Qed.

Lemma populated_request_failures (args : query) (w : Py.world)
    (points days : Z) (e : Py.exn) :
  Py.int (args_get args "points" 100) = Py.Ok points ->
  Py.int (args_get args "days" 30) = Py.Ok days ->
  1 <= points ->
  analyze_uhi args w = Failure e ->
  e = Py.OverflowError_pow \/ e = Py.OverflowError_timedelta \/
  e = Py.OverflowError_date.
Proof.
  intros Hpoints Hdays Hpos H. unfold analyze_uhi in H.
  destruct (analyze_uhi_try args w) as [[rs s]|e'] eqn:Htry; [discriminate |].
  injection H as ->. unfold analyze_uhi_try in Htry.
  rewrite Hpoints, Hdays in Htry. cbn [Py.bind] in Htry. cbv zeta in Htry.
  set (g := generate w (Z.to_nat points) generation_start) in *.
  assert (Hinv : generation_invariant g)
    by apply generate_invariant, generation_start_invariant.
  destruct Hinv as (_ & Htemp & Hndvi).
  assert (Hres : results g <> []).
  { intros E. assert (L : List.length (results g) = Z.to_nat points)
      by (unfold g; rewrite generate_length; simpl; lia).
    rewrite E in L. simpl in L. lia. }
  apply bind_raise in Htry. destruct Htry as [Htry | (m & _ & Htry)].
  { apply truediv_raise, len_zero in Htry. rewrite Htemp in Htry.
    now apply map_nonempty in Htry. }
  rewrite update_uhi_spec in Htry. cbv iota beta in Htry.
  apply bind_raise in Htry. destruct Htry as [Htry | (s & _ & Htry)];
    [| discriminate Htry].
  apply compute_statistics_raise in Htry; trivial.
  - rewrite Htemp. now apply map_nonempty.
  - rewrite Hndvi. now apply map_nonempty.
  - cbn [app]. now apply map_nonempty.
Qed.

(** X9: a request whose parameters are integers and that asks for at
    least one point can only fail on an overflow (of a squared deviation,
    of the [timedelta], or of the start date): it never divides by zero
    and never takes the minimum or maximum of an empty list. *)
Theorem X9_failures_of_a_populated_request (args : query) (w : Py.world)
    (points days : Z) (e : Py.exn) :
  Py.int (args_get args "points" 100) = Py.Ok points ->
  Py.int (args_get args "days" 30) = Py.Ok days ->
  1 <= points ->
  analyze_uhi args w = Failure e ->
  e = Py.OverflowError_pow \/ e = Py.OverflowError_timedelta \/
  e = Py.OverflowError_date.
Proof. exact (populated_request_failures args w points days e). Qed.

Lemma X9_failures_of_a_populated_request_witness :
  analyze_uhi (request_points_days "2" "1000000000") world_hot
    = Failure Py.OverflowError_timedelta /\
  analyze_uhi (request_points_days "2" "740000") world_hot
    = Failure Py.OverflowError_date /\
  (Py.OverflowError_timedelta = Py.OverflowError_pow \/
   Py.OverflowError_timedelta = Py.OverflowError_timedelta \/
   Py.OverflowError_timedelta = Py.OverflowError_date).
Proof.
  assert (H : analyze_uhi (request_points_days "2" "1000000000") world_hot
              = Failure Py.OverflowError_timedelta) by (vm_compute; reflexivity).
  split; [exact H |]. split; [vm_compute; reflexivity |].
  apply (X9_failures_of_a_populated_request
           (request_points_days "2" "1000000000") world_hot 2 1000000000);
    [reflexivity | reflexivity | lia | exact H].
Defined.

(** ** Defaults of the query parameters *)

Lemma args_get_absent (args : query) (key : string) (default : Z) :
  (forall v, ~ In (key, v) args) -> args_get args key default = Py.Default default.
Proof.
  induction args as [|[k v] args IH]; intros Habsent; simpl; [reflexivity |].
  destruct (String.eqb_spec k key) as [->|_].
  - elim (Habsent v). now left.
  - apply IH. intros v' Hin. apply (Habsent v'). now right.
Qed.

(** X10: a parameter that the query does not carry takes its default: a
    successful result of a request without [points] has exactly 100
    observations, and one of a request without [days] has a window that
    starts 30 days before the first reading of the clock. *)
Theorem X10_default_parameters (args : query) (w : Py.world) (data : list point)
    (st : statistics_record) :
  analyze_uhi args w = Success data st ->
  ((forall v, ~ In ("points", v) args) ->
   Py.len data = 100 /\ total_points st = 100) /\
  ((forall v, ~ In ("days", v) args) ->
   start_date (date_range st) = Py.now w 0 - 30).
Proof.
  intros H. split; intros Habsent.
  - apply analyze_uhi_facts in H.
    destruct H as (points & m & Hpoints & _ & Hlen & _ & _ & _ & Htotal & _).
    rewrite (args_get_absent _ _ _ Habsent) in Hpoints.
    injection Hpoints as <-. now split.
  - apply analyze_uhi_statistics in H.
    destruct H as (points & days & mean & _ & Hdays & _ & _ & Hstat).
    rewrite (args_get_absent _ _ _ Habsent) in Hdays. injection Hdays as <-.
    apply compute_statistics_ok in Hstat.
    destruct Hstat as (tmin & tmax & sq & var & nmin & nmax & navg & umin & umax
      & uavg & delta & start & _ & _ & _ & _ & _ & _ & _ & _ & _ & _
      & Hdelta & Hstart & _ & _ & _ & Hrange).
    apply timedelta_ok in Hdelta. destruct Hdelta as (-> & _).
    apply datetime_sub_ok in Hstart. destruct Hstart as (-> & _).
    rewrite Hrange. reflexivity.
Qed.

Lemma X10_default_parameters_witness :
  exists data st,
    analyze_uhi [] world_hot = Success data st /\
    (forall v, ~ In ("points", v) (@nil (string * string))) /\
    (forall v, ~ In ("days", v) (@nil (string * string))) /\
    Py.len data = 100 /\ total_points st = 100 /\
    start_date (date_range st) = Py.now world_hot 0 - 30.
Proof.
  destruct (analyze_uhi [] world_hot) as [data st|e] eqn:E.
  - exists data, st. split; [reflexivity |].
    split; [intros v [] |]. split; [intros v [] |].
    destruct (X10_default_parameters [] world_hot data st E) as (Hp & Hd).
    destruct (Hp (fun v (F : In ("points", v) []) => F)) as (Hlen & Htotal).
    split; [exact Hlen |]. split; [exact Htotal |].
    exact (Hd (fun v (F : In ("days", v) []) => F)).
  - exfalso. vm_compute in E. discriminate E.
Defined.

(** ** Each observation comes from its own four draws *)

Lemma generate_succ (w : Py.world) (n : nat) (g : generation) :
  generate w (S n) g = generate_point w (generate w n g).
Proof.
  revert g. induction n as [|n IH]; intros g; [reflexivity |].
  change (generate w (S (S n)) g) with (generate w (S n) (generate_point w g)).
  now rewrite IH.
Qed.

Lemma generate_point_drawn (w : Py.world) (g : generation) :
  drawn (generate_point w g) = (4 + drawn g)%nat.
Proof. reflexivity. Qed.

Lemma generate_drawn (w : Py.world) (n : nat) (g : generation) :
  drawn (generate w n g) = (4 * n + drawn g)%nat.
Proof.
  induction n as [|n IH]; [reflexivity |].
  rewrite generate_succ, generate_point_drawn, IH. lia.
Qed.

(** Two generators that agree on the next four draws append the same
    point. *)
Lemma generate_point_local (w1 w2 : Py.world) (g1 g2 : generation) :
  drawn g1 = drawn g2 ->
  (forall j, (drawn g1 <= j < drawn g1 + 4)%nat ->
             Py.random_bits w1 j = Py.random_bits w2 j) ->
  exists p,
    results (generate_point w1 g1) = results g1 ++ [p] /\
    results (generate_point w2 g2) = results g2 ++ [p].
Proof.
  intros Hd Hbits.
  unfold generate_point, Py.uniform, Py.random. cbv beta iota zeta.
  cbn [results]. rewrite <- Hd.
  rewrite <- (Hbits (drawn g1)), <- (Hbits (S (drawn g1))),
    <- (Hbits (S (S (drawn g1)))), <- (Hbits (S (S (S (drawn g1))))) by lia.
  eexists. split; reflexivity.
Qed.

Lemma generate_nth_stable (w : Py.world) (n i : nat) :
  (i < n)%nat ->
  nth_error (results (generate w n generation_start)) i =
  nth_error (results (generate w (S i) generation_start)) i.
Proof.
  induction n as [|n IH]; intros Hi; [lia |].
  destruct (Nat.eq_dec i n) as [->|Hne]; [reflexivity |].
  rewrite <- IH by lia. rewrite generate_succ.
  destruct (generate_point_results w (generate w n generation_start))
    as (p & -> & _).
  apply nth_error_app1. rewrite generate_length. simpl. lia.
Qed.

Lemma generate_nth_local (w1 w2 : Py.world) (n1 n2 i : nat) :
  (i < n1)%nat -> (i < n2)%nat ->
  (forall j, (4 * i <= j < 4 * i + 4)%nat ->
             Py.random_bits w1 j = Py.random_bits w2 j) ->
  exists r,
    nth_error (results (generate w1 n1 generation_start)) i = Some r /\
    nth_error (results (generate w2 n2 generation_start)) i = Some r.
Proof.
  intros H1 H2 Hbits.
  rewrite (generate_nth_stable w1 n1 i H1), (generate_nth_stable w2 n2 i H2).
  rewrite !generate_succ.
  destruct (generate_point_local w1 w2 (generate w1 i generation_start)
              (generate w2 i generation_start)) as (r & -> & ->).
  - now rewrite !generate_drawn.
  - intros j Hj. apply Hbits. rewrite generate_drawn in Hj. simpl in Hj. lia.
  - exists r.
    assert (L : forall w, List.length (results (generate w i generation_start)) = i)
      by (intros w; rewrite generate_length; simpl; lia).
    split; rewrite nth_error_app2, L, Nat.sub_diag by (rewrite L; lia);
      reflexivity.
Qed.

(** X11: the i-th observation comes from the four draws 4i .. 4i+3 and
    from nothing else: two successful runs, whatever their numbers of
    points and their other draws, whose generators agree on these four
    draws return i-th observations that agree on every field but the
    heat intensity. *)
Theorem X11_observation_from_four_draws (args1 args2 : query)
    (w1 w2 : Py.world) (data1 data2 : list point) (st1 st2 : statistics_record)
    (i : nat) (p q : point) :
  analyze_uhi args1 w1 = Success data1 st1 ->
  analyze_uhi args2 w2 = Success data2 st2 ->
  (forall j, (4 * i <= j < 4 * i + 4)%nat ->
             Py.random_bits w1 j = Py.random_bits w2 j) ->
  nth_error data1 i = Some p ->
  nth_error data2 i = Some q ->
  same_generated_fields p q.
Proof.
  intros H1 H2 Hbits Hp Hq.
  apply analyze_uhi_statistics in H1, H2.
  destruct H1 as (n1 & _ & m1 & _ & _ & _ & Hdata1 & _).
  destruct H2 as (n2 & _ & m2 & _ & _ & _ & Hdata2 & _).
  rewrite Hdata1 in Hp. rewrite Hdata2 in Hq.
  rewrite nth_error_map in Hp, Hq.
  assert (Hi1 : (i < Z.to_nat n1)%nat).
  { assert (F : nth_error (results (generate w1 (Z.to_nat n1) generation_start)) i
                <> None) by (intros F; rewrite F in Hp; discriminate Hp).
    apply nth_error_Some in F. rewrite generate_length in F. simpl in F. lia. }
  assert (Hi2 : (i < Z.to_nat n2)%nat).
  { assert (F : nth_error (results (generate w2 (Z.to_nat n2) generation_start)) i
                <> None) by (intros F; rewrite F in Hq; discriminate Hq).
    apply nth_error_Some in F. rewrite generate_length in F. simpl in F. lia. }
  destruct (generate_nth_local w1 w2 _ _ i Hi1 Hi2 Hbits) as (r & E1 & E2).
  rewrite E1 in Hp. rewrite E2 in Hq. simpl in Hp, Hq.
  injection Hp as <-. injection Hq as <-.
  repeat split.
Qed.

Lemma X11_observation_from_four_draws_witness :
  exists p q data1 st1 data2 st2,
    analyze_uhi (request_points "3") world_three = Success data1 st1 /\
    analyze_uhi (request_points "2") world_hot = Success data2 st2 /\
    nth_error data1 1 = Some p /\
    nth_error data2 1 = Some q /\
    uhi_intensity p <> uhi_intensity q /\
    same_generated_fields p q.
Proof.
  do 6 eexists.
  split; [vm_compute; reflexivity |].
  split; [vm_compute; reflexivity |].
  split; [reflexivity |]. split; [reflexivity |].
  split; [discriminate |].
  eapply (X11_observation_from_four_draws (request_points "3") (request_points "2")
            world_three world_hot _ _ _ _ 1%nat);
    [vm_compute; reflexivity | vm_compute; reflexivity | | reflexivity | reflexivity].
  intros j Hj.
  assert (Hcase : j = 4%nat \/ j = 5%nat \/ j = 6%nat \/ j = 7%nat) by lia.
  destruct Hcase as [-> | [-> | [-> | ->]]]; reflexivity.
Defined.

(** X12: for a request whose parameters are integers, the division by
    zero is the mark of an empty request and of nothing else: the handler
    fails with it exactly when [points] is zero or negative. *)
Theorem X12_division_by_zero_iff_no_point (args : query) (w : Py.world)
    (points days : Z) :
  Py.int (args_get args "points" 100) = Py.Ok points ->
  Py.int (args_get args "days" 30) = Py.Ok days ->
  (analyze_uhi args w = Failure Py.ZeroDivisionError <-> points <= 0).
Proof.
  intros Hpoints Hdays. split.
  - intros H. destruct (Z.le_gt_cases points 0) as [Hle|Hgt]; [assumption |].
    destruct (populated_request_failures args w points days _ Hpoints Hdays
                ltac:(lia) H) as [F | [F | F]]; discriminate F.
  - apply (analyze_uhi_no_point args w points days Hpoints Hdays).
Qed.

Lemma X12_division_by_zero_iff_no_point_witness :
  analyze_uhi (request_points_days "-4" "7") world_hot
    = Failure Py.ZeroDivisionError /\
  analyze_uhi (request_points_days "2" "1000000000") world_hot
    <> Failure Py.ZeroDivisionError.
Proof.
  split.
  - apply (X12_division_by_zero_iff_no_point
             (request_points_days "-4" "7") world_hot (-4) 7);
      [reflexivity | reflexivity | lia].
  - intros H.
    apply (X12_division_by_zero_iff_no_point
             (request_points_days "2" "1000000000") world_hot 2 1000000000) in H;
      [lia | reflexivity | reflexivity].
Defined.

(** ** Zone counts and labels *)

Lemma derived_severity (p : point) (z : Z) (label : string) :
  derived_fields p ->
  get_severity z = label -> z = 0 \/ z = 1 \/ z = 2 ->
  (zone p =? z) = String.eqb (severity p) label.
Proof.
  intros (Hz & _ & _ & Hs & _) <- Hrange. rewrite Hs.
  destruct (zone_of_lst_range (lst p)) as [E | [E | E]];
    rewrite Hz, E; destruct Hrange as [-> | [-> | ->]]; reflexivity.
Qed.

(** X13: the zone counts of the statistics count the labels shown: in a
    successful result [high_heat_zones], [medium_heat_zones] and
    [low_heat_zones] are the numbers of observations whose severity is
    "High", "Medium" and "Low". *)
Theorem X13_zone_counts_count_severities (args : query) (w : Py.world)
    (data : list point) (st : statistics_record) :
  analyze_uhi args w = Success data st ->
  high_heat_zones st
    = Py.len (filter (fun p => String.eqb (severity p) "High") data) /\
  medium_heat_zones st
    = Py.len (filter (fun p => String.eqb (severity p) "Medium") data) /\
  low_heat_zones st
    = Py.len (filter (fun p => String.eqb (severity p) "Low") data).
Proof.
  intros H. apply analyze_uhi_facts in H.
  destruct H as (points & m & _ & _ & _ & Hall & _ & _ & _ & -> & -> & ->).
  rewrite Forall_forall in Hall. unfold count_zone.
  repeat split; f_equal; apply filter_ext_in; intros p Hin;
    destruct (Hall p Hin) as (Hd & _);
    apply (derived_severity p _ _ Hd); try reflexivity; auto.
Qed.

Lemma X13_zone_counts_count_severities_witness :
  exists data st,
    analyze_uhi (request_points "2") world_hot = Success data st /\
    map severity data = ["High"; "Low"] /\
    high_heat_zones st = 1 /\ medium_heat_zones st = 0 /\ low_heat_zones st = 1 /\
    high_heat_zones st
      = Py.len (filter (fun p => String.eqb (severity p) "High") data) /\
    medium_heat_zones st
      = Py.len (filter (fun p => String.eqb (severity p) "Medium") data) /\
    low_heat_zones st
      = Py.len (filter (fun p => String.eqb (severity p) "Low") data).
Proof.
  eexists. eexists.
  split; [vm_compute; reflexivity |].
  split; [reflexivity |].
  split; [reflexivity |]. split; [reflexivity |]. split; [reflexivity |].
  eapply (X13_zone_counts_count_severities (request_points "2") world_hot).
  vm_compute. reflexivity.
Defined.

(** ** Parameters that are not what the handler expects *)










